(** * make_lastz_chains: the control layer of the chain pipeline

    A shallow embedding of the orchestration code of make_lastz_chains
    (the CLI entry point, the executable resolver, the chain-run and
    chain-clean steps) and the properties its specification states.

    Python values are modelled as the code uses them: paths and messages
    are strings, lists are lists, the filesystem is a finite map from path
    strings to nodes, and every function with effects runs in a small
    state-and-exception monad over a world that records the filesystem and
    the ordered trace of what the process did. *)

From Stdlib Require Import ZArith Ascii DecimalString List Lia.
From Stdlib Require String.
From stdpp Require Import gmap strings list.

(** ** Python primitives *)

Module Py.

(** Values of dynamically typed attributes (only where the code depends
    on the dynamic type: [is True], [is None], truthiness). *)
Inductive pyval :=
| PyNone
| PyBool (b : bool)
| PyInt (z : Z)
| PyStr (s : string).

(** [x is True]: identity with the [True] singleton. An [int], even 1,
    is a different object. *)
Definition is_True (v : pyval) : bool :=
  match v with PyBool true => true | _ => false end.

(** [bool(x)]: truthiness. *)
Definition truthy (v : pyval) : bool :=
  match v with
  | PyNone => false
  | PyBool b => b
  | PyInt z => negb (z =? 0)%Z
  | PyStr s => negb (String.eqb s "")
  end.

(** [str(n)] for an [int]. *)
Definition str_int (z : Z) : string := NilZero.string_of_int (Z.to_int z).

(** [s.startswith(p)] *)
Definition startswith (s p : string) : bool := String.prefix p s.

(** [s.endswith(suf)] *)
Definition endswith (s suf : string) : bool :=
  let n := String.length s in
  let m := String.length suf in
  (m <=? n) && String.eqb (String.substring (n - m) m s) suf.

(** [s.removesuffix(suf)] *)
Definition removesuffix (s suf : string) : string :=
  if endswith s suf && negb (String.eqb suf "")
  then String.substring 0 (String.length s - String.length suf) s
  else s.

(** [sep.join(l)] *)
Definition str_join (sep : string) (l : list string) : string :=
  String.concat sep l.

(** [x in s] for strings: [x] occurs in [s]. *)
Fixpoint contains (s x : string) : bool :=
  String.prefix x s ||
  match s with
  | EmptyString => false
  | String _ s' => contains s' x
  end.

(** Whitespace as [str.split()] sees it, on the ASCII range. *)
Definition is_space (a : ascii) : bool :=
  match a with
  | "009" | "010" | "011" | "012" | "013"
  | "028" | "029" | "030" | "031" | " " => true
  | _ => false
  end%char.

(** [s.split()]: the maximal runs of non-whitespace characters. *)
Fixpoint split_ws (s : string) : list string :=
  match s with
  | EmptyString => []
  | String a s' =>
      if is_space a then split_ws s'
      else match s' with
           | EmptyString => [String a ""]
           | String b _ =>
               if is_space b then String a "" :: split_ws s'
               else match split_ws s' with
                    | w :: ws => String a w :: ws
                    | [] => [String a ""]
                    end
           end
  end.

Fixpoint lstrip (s : string) : string :=
  match s with
  | EmptyString => ""
  | String a s' => if is_space a then lstrip s' else s
  end.

(** [s.strip()] *)
Definition strip (s : string) : string :=
  String.rev (lstrip (String.rev (lstrip s))).

(** [s.split(c)] for a one-character separator: never empty. *)
Fixpoint split_on (c : ascii) (s : string) : list string :=
  match s with
  | EmptyString => [""]
  | String a s' =>
      if Ascii.eqb a c then "" :: split_on c s'
      else match split_on c s' with
           | w :: ws => String a w :: ws
           | [] => [String a ""]
           end
  end.

(** *** posixpath *)

Definition isabs (p : string) : bool := startswith p "/".

(** One round of the loop of [os.path.join]. *)
Definition join1 (path b : string) : string :=
  if startswith b "/" then b
  else if String.eqb path "" || endswith path "/" then path +:+ b
  else path +:+ "/" +:+ b.

(** [os.path.join(a, *p)] *)
Definition path_join (a : string) (p : list string) : string :=
  fold_left join1 p a.

Definition is_nil {A} (l : list A) : bool :=
  match l with [] => true | _ => false end.

(** The body of the loop of [os.path.normpath]. *)
Definition normpath_step (initial_slashes : nat)
    (new_comps : list string) (comp : string) : list string :=
  if String.eqb comp "" || String.eqb comp "." then new_comps
  else if negb (String.eqb comp "..")
          || ((initial_slashes =? 0) && is_nil new_comps)
          || (negb (is_nil new_comps) && String.eqb (List.last new_comps "") "..")
  then new_comps ++ [comp]
  else if negb (is_nil new_comps) then removelast new_comps
  else new_comps.

Fixpoint slashes (n : nat) : string :=
  match n with O => "" | S k => String "/" (slashes k) end.

(** [os.path.normpath(path)] *)
Definition normpath (path : string) : string :=
  if String.eqb path "" then "."
  else
    let initial_slashes :=
      if startswith path "/"
      then if startswith path "//" && negb (startswith path "///") then 2 else 1
      else 0 in
    let comps := fold_left (normpath_step initial_slashes) (split_on "/" path) [] in
    let path' := str_join "/" comps in
    let path'' := if initial_slashes =? 0 then path'
                  else slashes initial_slashes +:+ path' in
    if String.eqb path'' "" then "." else path''.

(** [os.path.abspath(path)], with the process working directory. *)
Definition abspath (cwd path : string) : string :=
  normpath (if isabs path then path else join1 cwd path).

(** What [str.split()] yields: a word, a non-empty string without
    whitespace. *)
Definition is_word (w : string) : Prop :=
  w <> "" /\ Forall (fun a => is_space a = false) (String.list_ascii_of_string w).

End Py.

(** ** The process and its world *)

Module Sys.

(** A filesystem node: a regular file with its content, or a directory. *)
Inductive node :=
| File (content : string)
| Dir.

(** What [subprocess] is given: an argument vector, or a line for the
    shell ([shell=True]). *)
Inductive command :=
| Argv (argv : list string)
| Shell (line : string) (cwd : option string).

(** A finished child process. *)
Record completed := Completed {
  returncode : Z;
  stdout : string;
  stderr : string;
}.

(** What the process did, in order. A spawn records the command, the
    [PATH] override handed to the child (if any) and the filesystem the
    child started on. *)
Inductive event :=
| EvLog (msg : string)
| EvPrintHelp
| EvMove (src dst : string)
| EvSpawn (cmd : command) (path_override : option string)
          (seen : gmap string node)
| EvCall (fn : string) (args : list string).

Inductive exn :=
| RuntimeError (msg : string)
| ValueError (msg : string)
| KeyError (key : string)
| OSError (msg : string)
| CalledProcessError (rc : Z) (cmd : command)
| SystemExit (code : Z)
| ExecutableNotFoundError (msg : string)
| PipelineSubprocessError (msg : string).

Record World := MkWorld {
  fs : gmap string node;
  trace : list event;
}.

(** What the process can only read: its working directory, its [PATH]
    variable, [platform.system()], [shutil.which], and the behaviour of
    the external programs ([None]: the program cannot be started). *)
Record Env := MkEnv {
  cwd : string;
  environ_PATH : option string;
  platform_system : string;
  which : string -> option string;
  run : command -> option string -> gmap string node ->
        option (completed * gmap string node);
}.

Inductive result (A : Type) :=
| Ok (a : A)
| Raise (e : exn).
Arguments Ok {A} a.
Arguments Raise {A} e.

(** Effectful code: an exception keeps the world reached so far. *)
Definition M (A : Type) : Type := World -> result A * World.

Definition ret {A} (a : A) : M A := fun w => (Ok a, w).

Definition bind {A B} (m : M A) (k : A -> M B) : M B :=
  fun w => match m w with
           | (Ok a, w') => k a w'
           | (Raise e, w') => (Raise e, w')
           end.

Definition raise {A} (e : exn) : M A := fun w => (Raise e, w).

(** [try: m except <handled>: h] *)
Definition try_except {A} (m : M A) (handler : exn -> option (M A)) : M A :=
  fun w => match m w with
           | (Ok a, w') => (Ok a, w')
           | (Raise e, w') =>
               match handler e with
               | Some h => h w'
               | None => (Raise e, w')
               end
           end.

Definition emit (ev : event) : M unit :=
  fun w => (Ok tt, MkWorld (fs w) (trace w ++ [ev])).

(** The events the process added between two worlds. *)
Definition events_since (w w' : World) : list event :=
  drop (length (trace w)) (trace w').

Definition get_fs : M (gmap string node) := fun w => (Ok (fs w), w).

Definition put_fs (f : gmap string node) : M unit :=
  fun w => (Ok tt, MkWorld f (trace w)).

Declare Scope py_scope.
Delimit Scope py_scope with py.
Notation "x <- m ;; k" := (bind m (fun x => k))
  (at level 100, m at next level, right associativity) : py_scope.
Notation "m ;; k" := (bind m (fun _ => k))
  (at level 100, right associativity) : py_scope.

(** *** os, os.path, shutil on the world *)

Definition is_file (f : gmap string node) (p : string) : bool :=
  match f !! p with Some (File _) => true | _ => false end.

Definition is_dir (f : gmap string node) (p : string) : bool :=
  match f !! p with Some Dir => true | _ => false end.

Definition path_exists (f : gmap string node) (p : string) : bool :=
  match f !! p with Some _ => true | None => false end.

(** The prefix shared by everything below directory [d]. *)
Definition dir_prefix (d : string) : string := Py.join1 d "".

(** [p] lies below directory [d]. *)
Definition below (d p : string) : bool :=
  Py.startswith p (dir_prefix d) && negb (String.eqb p (dir_prefix d)).

Fixpoint strip_prefix (pre s : string) : option string :=
  match pre, s with
  | EmptyString, _ => Some s
  | String a pre', String b s' =>
      if Ascii.eqb a b then strip_prefix pre' s' else None
  | String _ _, EmptyString => None
  end.

(** The name of [p] as an entry of directory [d], if it is one. *)
Definition entry_name (d p : string) : option string :=
  match strip_prefix (dir_prefix d) p with
  | Some n =>
      if String.eqb n "" || Py.contains n "/" then None else Some n
  | None => None
  end.

(** The entries of directory [d], in the order of the map. *)
Definition entries (f : gmap string node) (d : string) : list string :=
  omap (entry_name d) (map fst (map_to_list f)).

(** [os.path.isfile(p)] *)
Definition isfile (p : string) : M bool :=
  (f <- get_fs ;; ret (is_file f p))%py.

(** [os.path.exists(p)] *)
Definition exists_ (p : string) : M bool :=
  (f <- get_fs ;; ret (path_exists f p))%py.

(** [os.listdir(d)]: the entries of [d], in the order the system
    yields them (here: the order of the map). *)
Definition listdir (d : string) : M (list string) :=
  (f <- get_fs ;;
   if is_dir f d
   then ret (entries f d)
   else raise (OSError ("listdir: not a directory: " +:+ d)))%py.

(** [os.makedirs(p, exist_ok=True)] on a filesystem where every ancestor
    of [p] is a directory already: the leaf alone is made. (Elsewhere the
    call also makes the missing ancestors, and it fails on an ancestor
    that is a regular file.) *)
Definition makedirs_exist_ok (p : string) : M unit :=
  (f <- get_fs ;;
   match f !! p with
   | Some Dir => ret tt
   | Some (File _) => raise (OSError ("File exists: " +:+ p))
   | None => put_fs (<[p := Dir]> f)
   end)%py.

(** The filesystem without [p] and everything below it. *)
Definition removed (p : string) (f : gmap string node) : gmap string node :=
  filter (fun kv => negb (String.eqb kv.1 p || below p kv.1)) f.

(** A directory that holds nothing. *)
Definition empty_dir (f : gmap string node) (d : string) : Prop :=
  is_dir f d = true /\ forall p, below d p = true -> f !! p = None.

(** [shutil.rmtree(p)] *)
Definition rmtree (p : string) : M unit :=
  (f <- get_fs ;;
   match f !! p with
   | Some Dir => put_fs (removed p f)
   | Some (File _) => raise (OSError ("Not a directory: " +:+ p))
   | None => raise (OSError ("No such file or directory: " +:+ p))
   end)%py.

(** [shutil.move(src, dst)] of a file onto a file path. *)
Definition move (src dst : string) : M unit :=
  (f <- get_fs ;;
   match f !! src with
   | Some n => emit (EvMove src dst) ;; put_fs (<[dst := n]> (delete src f))
   | None => raise (OSError ("No such file or directory: " +:+ src))
   end)%py.

(** [open(p, 'w')]: the file is created or truncated. *)
Definition open_write (p : string) : M unit :=
  (f <- get_fs ;;
   match f !! p with
   | Some Dir => raise (OSError ("Is a directory: " +:+ p))
   | _ => put_fs (<[p := File ""]> f)
   end)%py.

(** [f.write(text)] on the handle that [open(p, 'w')] gave, at the end of
    the [with] block: the file then holds [text]. *)
Definition handle_write (p text : string) : M unit :=
  (f <- get_fs ;; put_fs (<[p := File text]> f))%py.

(** *** subprocess *)

(** Start a child and wait for it. *)
Definition spawn (env : Env) (cmd : command) (path_override : option string)
  : M completed :=
  (f <- get_fs ;;
   emit (EvSpawn cmd path_override f) ;;
   match run env cmd path_override f with
   | Some (c, f') => put_fs f' ;; ret c
   | None => raise (OSError "cannot start the program")
   end)%py.

(** [subprocess.call(argv)]: the exit status, whatever it is. *)
Definition subprocess_call (env : Env) (argv : list string) : M Z :=
  (c <- spawn env (Argv argv) None ;; ret (returncode c))%py.

(** [subprocess.check_call(argv)] *)
Definition subprocess_check_call (env : Env) (argv : list string) : M unit :=
  (c <- spawn env (Argv argv) None ;;
   if (returncode c =? 0)%Z then ret tt
   else raise (CalledProcessError (returncode c) (Argv argv)))%py.

(** [subprocess.run(line, shell=True, check=True)] *)
Definition subprocess_run_shell_check (env : Env) (line : string) : M unit :=
  (c <- spawn env (Shell line None) None ;;
   if (returncode c =? 0)%Z then ret tt
   else raise (CalledProcessError (returncode c) (Shell line None)))%py.

(** [subprocess.check_output(line, shell=True, cwd=dir).decode("utf-8")] *)
Definition subprocess_check_output_shell (env : Env) (line dir : string)
  : M string :=
  (c <- spawn env (Shell line (Some dir)) None ;;
   if (returncode c =? 0)%Z then ret (stdout c)
   else raise (CalledProcessError (returncode c) (Shell line (Some dir))))%py.

(** Modelled from the spec: [to_log] of modules/make_chains_logging.py,
    which is not among the sources; it records the message in the run
    log. *)
Definition to_log (msg : string) : M unit := emit (EvLog msg).

End Sys.

Import Sys.
Local Open Scope py_scope.

(** ** constants.py, modules/parameters.py, modules/project_paths.py

    These files are not among the sources. The values of constants.py
    are parameters of the development; of the two records, the fields the
    steps read. *)

Record Constants := MkConstants {
  KENT_BINARIES_DIRNAME : string;
  CHAIN_CLEAN_MICRO_ENV : string;
  (* Constants.ScriptNames *)
  RUN_LASTZ : string;
  REPEAT_FILLER : string;
  (* Constants.ToolNames *)
  FA_TO_TWO_BIT : string;
  TWO_BIT_TO_FA : string;
  PSL_SORT_ACC : string;
  AXT_CHAIN : string;
  CHAIN_ANTI_REPEAT : string;
  CHAIN_MERGE_SORT : string;
  CHAIN_CLEANER : string;
  CHAIN_SORT : string;
  CHAIN_SCORE : string;
  LASTZ : string;
  CHAIN_NET : string;
  (* directory and file names of the project layout *)
  TEMP_CAT_DIRNAME : string;
  TEMP_AXT_CHAIN_DIRNAME : string;
  PSL_SORT_TEMP_DIRNAME : string;
  SORTED_PSL_DIRNAME : string;
  SPLIT_PSL_DIRNAME : string;
  CHAIN_RUN_OUT_DIRNAME : string;
  CHAIN_JOBLIST_FILENAME : string;
  BUNDLE_PSL_MAX_BASES : Z;
}.

(** The attributes of [PipelineParameters] that the steps read.
    [fill_chain] is kept as a Python value: the clean step tests it with
    [is True], and the command line declares it [type=int]. *)
Record PipelineParameters := MkParams {
  fill_chain : Py.pyval;
  clean_chain_parameters : string;
  seq_1_dir : string;
  seq_2_dir : string;
  seq_1_len : string;
  seq_2_len : string;
  chain_min_score : Z;
  chain_linear_gap : string;
}.

(** The attributes of [ProjectPaths] that the clean step reads. *)
Record ProjectPaths := MkPaths {
  filled_chain : string;
  merged_chain : string;
  before_cleaning_chain : string;
  chain_clean_micro_env : string;
  clean_removed_suspects : string;
  chain_cleaner_log : string;
}.

Definition nl : string := String "010"%char "".

(** ** modules/step_executables.py *)

Module step_executables.

Record StepExecutables := MkStepExecutables {
  root_dir : string;
  hl_kent_binaries_path : string;
  chain_clean_env_dir : string;
  not_found : list string;
  lastz_wrapper : option string;
  repeat_filler : option string;
  fa_to_two_bit : string;
  two_bit_to_fa : string;
  psl_sort_acc : string;
  axt_chain : string;
  chain_anti_repeat : string;
  chain_merge_sort : string;
  chain_cleaner : string;
  chain_sort : string;
  chain_score : string;
  lastz : string;
  chain_net : option bool;
}.

Section Resolver.
Variable env : Env.
Variable f : gmap string node.

(** [__find_script]: the value, and [self.not_found] afterwards. *)
Definition find_script (root : string) (not_found : list string)
  (script_name : string) : option string * list string :=
let rel_path := Py.path_join root ["standalone_scripts"; script_name] in
let abs_path := Py.abspath (cwd env) rel_path in
if negb (is_file f abs_path)
then (None, not_found ++ [script_name])
else (Some abs_path, not_found).

(** [__find_binary] *)
Definition find_binary (hl_kent : string) (not_found : list string)
  (binary_name : string) : string * list string :=
match which env binary_name with
| Some binary_path => (binary_path, not_found)
| None =>
    let binary_path := Py.path_join hl_kent [binary_name] in
    if negb (path_exists f binary_path)
    then (binary_path, not_found ++ [binary_name])
    else (binary_path, not_found)
end.

(** [if shutil.which(name):] the lookup found a (non-empty) path. *)
Definition on_search_path (name : string) : bool :=
match which env name with
| Some p => Py.truthy (Py.PyStr p)
| None => false
end.

(** [__locate_chain_net] *)
Definition locate_chain_net (env_dir : string) (not_found : list string)
  (chain_net : string) : option bool * list string :=
if on_search_path chain_net
then (Some true, not_found)
else if is_file f (Py.path_join env_dir [chain_net])
then (Some true, not_found)
else (None, not_found ++ [chain_net]).

(** The assignments of [__init__], before [__check_completeness]. *)
Definition resolve (c : Constants) (root : string) : StepExecutables :=
let hl := Py.path_join root [KENT_BINARIES_DIRNAME c] in
let ce := Py.path_join root [CHAIN_CLEAN_MICRO_ENV c] in
let nf := [] in
let '(v_lastz_wrapper, nf) := find_script root nf (RUN_LASTZ c) in
let '(v_repeat_filler, nf) := find_script root nf (REPEAT_FILLER c) in
let '(v_fa_to_two_bit, nf) := find_binary hl nf (FA_TO_TWO_BIT c) in
let '(v_two_bit_to_fa, nf) := find_binary hl nf (TWO_BIT_TO_FA c) in
let '(v_psl_sort_acc, nf) := find_binary hl nf (PSL_SORT_ACC c) in
let '(v_axt_chain, nf) := find_binary hl nf (AXT_CHAIN c) in
let '(v_chain_anti_repeat, nf) := find_binary hl nf (CHAIN_ANTI_REPEAT c) in
let '(v_chain_merge_sort, nf) := find_binary hl nf (CHAIN_MERGE_SORT c) in
let '(v_chain_cleaner, nf) := find_binary hl nf (CHAIN_CLEANER c) in
let '(v_chain_sort, nf) := find_binary hl nf (CHAIN_SORT c) in
let '(v_chain_score, nf) := find_binary hl nf (CHAIN_SCORE c) in
let '(v_lastz, nf) := find_binary hl nf (LASTZ c) in
let '(v_chain_net, nf) := locate_chain_net ce nf (CHAIN_NET c) in
MkStepExecutables root hl ce nf
  v_lastz_wrapper v_repeat_filler v_fa_to_two_bit v_two_bit_to_fa
  v_psl_sort_acc v_axt_chain v_chain_anti_repeat v_chain_merge_sort
  v_chain_cleaner v_chain_sort v_chain_score v_lastz v_chain_net.
End Resolver.

Definition err_msg (self : StepExecutables) : string :=
  let not_found_bins := Py.str_join nl (map (fun x => "* " +:+ x) (not_found self)) in
  "Error! The following tools not found neither in $PATH nor "
  +:+ "in the download dir:" +:+ nl +:+ not_found_bins +:+ nl +:+ "Please note that "
  +:+ "chainNet should be placed either in $PATH or in the "
  +:+ chain_clean_env_dir self +:+ " directory. Other tools are "
  +:+ "expected to be either in $PATH or " +:+ hl_kent_binaries_path self +:+ nl
  +:+ "Please use install_dependencies.py to automate the process.".

(** [__check_completeness] *)
Definition check_completeness (self : StepExecutables) : M unit :=
  if length (not_found self) =? 0
  then to_log "All necessary executables found."
  else raise (ExecutableNotFoundError (err_msg self)).

(** [StepExecutables(root_dir)] *)
Definition init (env : Env) (c : Constants) (root : string) : M StepExecutables :=
  f <- get_fs ;;
  let self := resolve env f c root in
  check_completeness self ;;
  ret self.

(** The record as the mapping the specification speaks of: each
    required tool name with the value its attribute holds. *)
Definition opt_str (o : option string) : Py.pyval :=
  match o with Some s => Py.PyStr s | None => Py.PyNone end.

Definition opt_flag (o : option bool) : Py.pyval :=
  match o with Some b => Py.PyBool b | None => Py.PyNone end.

Definition tool_values (c : Constants) (self : StepExecutables)
  : list (string * Py.pyval) :=
  [ (RUN_LASTZ c, opt_str (lastz_wrapper self));
    (REPEAT_FILLER c, opt_str (repeat_filler self));
    (FA_TO_TWO_BIT c, Py.PyStr (fa_to_two_bit self));
    (TWO_BIT_TO_FA c, Py.PyStr (two_bit_to_fa self));
    (PSL_SORT_ACC c, Py.PyStr (psl_sort_acc self));
    (AXT_CHAIN c, Py.PyStr (axt_chain self));
    (CHAIN_ANTI_REPEAT c, Py.PyStr (chain_anti_repeat self));
    (CHAIN_MERGE_SORT c, Py.PyStr (chain_merge_sort self));
    (CHAIN_CLEANER c, Py.PyStr (chain_cleaner self));
    (CHAIN_SORT c, Py.PyStr (chain_sort self));
    (CHAIN_SCORE c, Py.PyStr (chain_score self));
    (LASTZ c, Py.PyStr (lastz self));
    (CHAIN_NET c, opt_flag (chain_net self)) ].

End step_executables.

(** ** make_chains.py *)

Module make_chains.

(** The namespace [argparse] yields for the declared arguments. *)
Record Namespace := MkNamespace {
  target_name : string;
  query_name : string;
  target_genome : string;
  query_genome : string;
  project_dir : option string;
  continue_from_step : option string;
  force : bool;
  lastz_y : Z; lastz_h : Z; lastz_l : Z; lastz_k : Z;
  seq1_chunk : Z; seq1_lap : Z; seq1_limit : Z;
  seq2_chunk : Z; seq2_lap : Z; seq2_limit : Z;
  ns_fill_chain : Z;
  fill_unmask : Z;
  fill_chain_min_score : Z; fill_insert_chain_minscore : Z;
  fill_gap_max_size_t : Z; fill_gap_max_size_q : Z;
  fill_gap_min_size_t : Z; fill_gap_min_size_q : Z;
  fill_lastz_k : Z; fill_lastz_l : Z;
  fill_memory : Z; fill_prepare_memory : Z;
  chaining_queue : string;
  chaining_memory : Z;
  clean_chain : Z;
  chain_clean_memory : Z;
  ns_clean_chain_parameters : string;
}.

(** The record of the entry point's own [StepExecutables] class. *)
Record StepExecutables := MkStepExecutables {
  partition_script : string;
  lastz_wrapper : string;
  split_chain_into_random_parts : string;
  bundle_chrom_split_psl_files : string;
  fa_to_two_bit : string;
  two_bit_to_fa : string;
}.

Section EntryPoint.
Variable env : Env.
(** [SCRIPT_LOCATION] and [__version__] *)
Variable SCRIPT_LOCATION : string.
Variable version : string.

(** [app.parse_args()] of the configured [argparse] parser: validates
    the argument vector (and leaves with status 2 when it is invalid). *)
Variable app_parse_args : list string -> M Namespace.

(** [parse_args()], on [sys.argv]. *)
Definition parse_args (argv : list string) : M Namespace :=
  if length argv <? 5
  then emit EvPrintHelp ;; raise (SystemExit 1)
  else args <- app_parse_args argv ;; ret args.

(** [StepExecutables.__find_script] *)
Definition find_script (script_name : string) : M string :=
  let rel_path := Py.path_join SCRIPT_LOCATION ["standalone_scripts"; script_name] in
  let abs_path := Py.abspath (cwd env) rel_path in
  b <- isfile abs_path ;;
  if negb b
  then raise (ValueError ("Error! Cannot locate script: " +:+ script_name))
  else ret abs_path.

(** [StepExecutables.__find_binary] *)
Definition find_binary (binary_name : string) : M string :=
  match which env binary_name with
  | None => raise (ValueError ("Error! Cannot locate binary: " +:+ binary_name))
  | Some binary_path => ret binary_path
  end.

(** [StepExecutables()] *)
Definition init : M StepExecutables :=
  v_partition_script <- find_script "partitionSequence.pl" ;;
  v_lastz_wrapper <- find_script "run_lastz.py" ;;
  v_split <- find_script "split_chain_into_random_parts.pl" ;;
  v_bundle <- find_script "bundle_chrom_split_psl_files.perl" ;;
  v_fa_to_two_bit <- find_binary "faToTwoBit" ;;
  v_two_bit_to_fa <- find_binary "twoBitToFa" ;;
  ret (MkStepExecutables v_partition_script v_lastz_wrapper v_split v_bundle
         v_fa_to_two_bit v_two_bit_to_fa).

(** The tools this constructor requires, in the order it looks for them,
    and whether each can be resolved. *)
Definition required_scripts : list string :=
  ["partitionSequence.pl"; "run_lastz.py";
   "split_chain_into_random_parts.pl"; "bundle_chrom_split_psl_files.perl"].

Definition required_binaries : list string := ["faToTwoBit"; "twoBitToFa"].

Definition script_missing (f : gmap string node) (script_name : string) : bool :=
  negb (is_file f (Py.abspath (cwd env)
          (Py.path_join SCRIPT_LOCATION ["standalone_scripts"; script_name]))).

Definition binary_missing (binary_name : string) : bool :=
  match which env binary_name with None => true | Some _ => false end.

Definition missing_tools (f : gmap string node) : list string :=
  List.filter (script_missing f) required_scripts
  ++ List.filter binary_missing required_binaries.

(** [log_version()] *)
Definition log_version : M string :=
  let cmd_hash := "git rev-parse HEAD" in
  let cmd_branch := "git rev-parse --abbrev-ref HEAD" in
  git <-
    try_except
      (h <- subprocess_check_output_shell env cmd_hash SCRIPT_LOCATION ;;
       b <- subprocess_check_output_shell env cmd_branch SCRIPT_LOCATION ;;
       ret (Py.strip h, Py.strip b))
      (fun e => match e with
                | CalledProcessError _ _ => Some (ret ("unknown", "unknown"))
                | _ => None
                end) ;;
  let '(git_hash, git_branch) := git in
  let v := "Version " +:+ version +:+ nl +:+ "Commit: " +:+ git_hash +:+ nl
           +:+ "Branch: " +:+ git_branch +:+ nl in
  to_log "# Make Lastz Chains #" ;;
  to_log v ;;
  ret v.

(** The collaborators of [run_pipeline] that are not among the
    sources, as parameters: the project directory manager, the step
    manager, the parameter record, the logger set-up and the
    preparation of the genome sequences. *)
Context {StepManager Parameters RenameTable : Type}.
Variable OutputDirectoryManager : Namespace -> M string.
Variable StepManager_new : string -> Namespace -> M StepManager.
Variable PipelineParameters_new : Namespace -> M Parameters.
Variable setup_logger : string -> M unit.
Variable dump_to_json : Parameters -> string -> M unit.
Variable setup_genome_sequences :
  string -> string -> string -> StepExecutables -> M RenameTable.
Variable execute_steps :
  StepManager -> string -> Parameters -> StepExecutables -> M unit.

(** The statements of [run_pipeline] up to the construction of the
    executables record. *)
Definition run_pipeline_setup (args : Namespace)
  : M (string * StepManager * Parameters) :=
  project_dir <- OutputDirectoryManager args ;;
  step_manager <- StepManager_new project_dir args ;;
  parameters <- PipelineParameters_new args ;;
  let log_file := Py.path_join project_dir ["run.log"] in
  setup_logger log_file ;;
  log_version ;;
  to_log ("Making chains for " +:+ target_genome args +:+ " and "
          +:+ query_genome args +:+ " files, saving results to " +:+ project_dir) ;;
  dump_to_json parameters project_dir ;;
  ret (project_dir, step_manager, parameters).

(** [run_pipeline(args)] *)
Definition run_pipeline (args : Namespace) : M unit :=
  ready <- run_pipeline_setup args ;;
  let '(project_dir, step_manager, parameters) := ready in
  step_executables <- init ;;
  target_chrom_rename_table <-
    setup_genome_sequences (target_genome args) (target_name args)
      project_dir step_executables ;;
  query_chrom_rename_table <-
    setup_genome_sequences (query_genome args) (query_name args)
      project_dir step_executables ;;
  execute_steps step_manager project_dir parameters step_executables.

(** [main()] *)
Definition main (argv : list string) : M unit :=
  args <- parse_args argv ;;
  run_pipeline args.

End EntryPoint.

End make_chains.

(** ** steps_implementations/bundle_psl_step.py *)

Module bundle_psl_step.

Section Step.
Variable env : Env.
Variable c : Constants.

Definition sort_command (input_file temp_sort_dir output_file
    psl_sort_acc_executable : string) : string :=
  psl_sort_acc_executable +:+ " nohead " +:+ output_file +:+ " "
  +:+ temp_sort_dir +:+ " " +:+ input_file.

Definition sort_psl_file (input_file temp_sort_dir output_file
    psl_sort_acc_executable : string) : M unit :=
  let sort_command :=
    sort_command input_file temp_sort_dir output_file psl_sort_acc_executable in
  subprocess_run_shell_check env sort_command.

Definition bundle_command (input_file output_dir : string) (max_bases : Z)
    (bundle_chrom_split_psl_files_executable : string) : string :=
  bundle_chrom_split_psl_files_executable +:+ " " +:+ input_file +:+ " "
  +:+ output_dir +:+ " --maxBases " +:+ Py.str_int max_bases.

Definition bundle_psl_file (input_file output_dir : string) (max_bases : Z)
    (bundle_chrom_split_psl_files_executable : string) : M unit :=
  let bundle_command :=
    bundle_command input_file output_dir max_bases
      bundle_chrom_split_psl_files_executable in
  subprocess_run_shell_check env bundle_command.

Definition do_bundle_psl (project_dir : string) (params : PipelineParameters)
    (executables : step_executables.StepExecutables) : M unit :=
  let cat_out_dirname := Py.path_join project_dir [TEMP_CAT_DIRNAME c] in
  let concatenated_file_path := Py.path_join cat_out_dirname ["concatenated.psl.gz"] in
  let temp_sort_dir := Py.path_join cat_out_dirname ["sort_temp"] in
  let sorted_file_path := Py.path_join cat_out_dirname ["sorted_psls"] in
  sort_psl_file concatenated_file_path temp_sort_dir sorted_file_path
    (step_executables.psl_sort_acc executables).
End Step.

End bundle_psl_step.

(** ** steps_implementations/chain_run_step.py *)

Module chain_run_step.

Section Step.
Variable env : Env.
Variable c : Constants.

(** [bundle_chrom_split_psl_files] of chain_run_bundle_substep.py and
    the [NextflowWrapper], which are not among the sources: in-process
    collaborators, taken as parameters. *)
Variable bundle_chrom_split_psl_files : string -> string -> string -> Z -> M unit.
Variable nextflow_execute : string -> string -> M unit.
Variable nextflow_cleanup : M unit.
Variable LASTZ_CONFIG_PATH : string.

Definition sort_cmd (psl_sort_acc sorted_psl_dir psl_sort_temp_dir
    file_list_arg : string) : list string :=
  [psl_sort_acc; "nohead"; sorted_psl_dir; psl_sort_temp_dir; file_list_arg].

(** [psl_bundle], part "1.1 -> sort": the sorted directory it leaves. *)
Definition psl_bundle_sort (cat_out_dirname chain_run_dir psl_sort_acc : string)
  : M string :=
  names <- listdir cat_out_dirname ;;
  let concatenated_files := map (fun x => Py.path_join cat_out_dirname [x]) names in
  let file_list_arg := Py.str_join " " concatenated_files in
  let psl_sort_temp_dir := Py.path_join chain_run_dir [PSL_SORT_TEMP_DIRNAME c] in
  makedirs_exist_ok psl_sort_temp_dir ;;
  let sorted_psl_dir := Py.path_join chain_run_dir [SORTED_PSL_DIRNAME c] in
  makedirs_exist_ok sorted_psl_dir ;;
  let sort_cmd := sort_cmd psl_sort_acc sorted_psl_dir psl_sort_temp_dir file_list_arg in
  subprocess_call env sort_cmd ;;
  rmtree psl_sort_temp_dir ;;
  ret sorted_psl_dir.

(** [psl_bundle], part "1.2 -> bundle chrom split files". *)
Definition psl_bundle_split (chain_run_dir sorted_psl_dir : string)
    (params : PipelineParameters) : M unit :=
  let split_psl_dir := Py.path_join chain_run_dir [SPLIT_PSL_DIRNAME c] in
  makedirs_exist_ok split_psl_dir ;;
  emit (EvCall "bundle_chrom_split_psl_files" [sorted_psl_dir; split_psl_dir]) ;;
  bundle_chrom_split_psl_files sorted_psl_dir (seq_1_len params) split_psl_dir
    (BUNDLE_PSL_MAX_BASES c).

Definition psl_bundle (cat_out_dirname chain_run_dir psl_sort_acc : string)
    (params : PipelineParameters) : M unit :=
  sorted_psl_dir <- psl_bundle_sort cat_out_dirname chain_run_dir psl_sort_acc ;;
  psl_bundle_split chain_run_dir sorted_psl_dir params.

(** The command of one bundle, before it is joined by spaces. *)
Definition chain_cmd (params : PipelineParameters)
    (executables : step_executables.StepExecutables)
    (in_path out_path : string) : list string :=
  [step_executables.axt_chain executables;
   "-psl";
   "-verbose=0";
   "-minScore=" +:+ Py.str_int (chain_min_score params);
   "-linearGap=" +:+ chain_linear_gap params;
   in_path;
   seq_1_dir params;
   seq_2_dir params;
   "stdout";
   "|";
   step_executables.chain_anti_repeat executables;
   seq_1_dir params;
   seq_2_dir params;
   "stdin";
   out_path].

Definition in_path_of (chain_run_dir bundle_filename : string) : string :=
  Py.path_join (Py.path_join chain_run_dir [SPLIT_PSL_DIRNAME c]) [bundle_filename].

Definition out_path_of (chain_run_dir bundle_filename : string) : string :=
  Py.path_join (Py.path_join chain_run_dir [CHAIN_RUN_OUT_DIRNAME c])
    [bundle_filename +:+ ".chain"].

(** The command line of the bundle named [n] as one string: what the
    joined [chain_cmd] amounts to for an entry of the split directory. *)
Definition job_line (chain_run_dir : string) (params : PipelineParameters)
    (executables : step_executables.StepExecutables) (n : string) : string :=
  step_executables.axt_chain executables
  +:+ " -psl -verbose=0 -minScore=" +:+ Py.str_int (chain_min_score params)
  +:+ " -linearGap=" +:+ chain_linear_gap params
  +:+ " " +:+ dir_prefix (Py.path_join chain_run_dir [SPLIT_PSL_DIRNAME c]) +:+ n
  +:+ " " +:+ seq_1_dir params +:+ " " +:+ seq_2_dir params
  +:+ " stdout | " +:+ step_executables.chain_anti_repeat executables
  +:+ " " +:+ seq_1_dir params +:+ " " +:+ seq_2_dir params
  +:+ " stdin " +:+ dir_prefix (Py.path_join chain_run_dir [CHAIN_RUN_OUT_DIRNAME c])
  +:+ n +:+ ".chain".

Definition make_chains_joblist (chain_run_dir : string)
    (params : PipelineParameters)
    (executables : step_executables.StepExecutables) : M (list string) :=
  let chain_out_dir := Py.path_join chain_run_dir [CHAIN_RUN_OUT_DIRNAME c] in
  makedirs_exist_ok chain_out_dir ;;
  let split_psl_dir := Py.path_join chain_run_dir [SPLIT_PSL_DIRNAME c] in
  bundle_filenames <- listdir split_psl_dir ;;
  let cluster_jobs :=
    fold_left
      (fun cluster_jobs bundle_filename =>
         let in_path := Py.path_join split_psl_dir [bundle_filename] in
         let out_path := Py.path_join chain_out_dir [bundle_filename +:+ ".chain"] in
         let cmd := chain_cmd params executables in_path out_path in
         cluster_jobs ++ [Py.str_join " " cmd])
      bundle_filenames [] in
  ret cluster_jobs.

Definition do_chain_run (project_dir : string) (params : PipelineParameters)
    (executables : step_executables.StepExecutables) : M unit :=
  let cat_out_dirname := Py.path_join project_dir [TEMP_CAT_DIRNAME c] in
  let chain_run_dir := Py.path_join project_dir [TEMP_AXT_CHAIN_DIRNAME c] in
  makedirs_exist_ok chain_run_dir ;;
  psl_bundle cat_out_dirname chain_run_dir
    (step_executables.psl_sort_acc executables) params ;;
  chain_jobs <- make_chains_joblist chain_run_dir params executables ;;
  let joblist_path := Py.path_join chain_run_dir [CHAIN_JOBLIST_FILENAME c] in
  open_write joblist_path ;;
  handle_write joblist_path (Py.str_join nl chain_jobs) ;;
  emit (EvCall "NextflowWrapper.execute" [joblist_path; LASTZ_CONFIG_PATH; chain_run_dir]) ;;
  nextflow_execute joblist_path chain_run_dir ;;
  nextflow_cleanup.
End Step.

End chain_run_step.

(** ** steps_implementations/clean_chain_step.py *)

Module clean_chain_step.

Section Step.
Variable env : Env.

Definition macos_message : string :=
  "Chain cleaner returned non-zero error code."
  +:+ "However, you run macOS, where it always return non-zero code."
  +:+ "It is impossible to differentiate whether it's a true error or now.".

Definition died_message (stderr : string) : string :=
  "chain cleaner process died with the following error message: " +:+ stderr.

(** The input the step selects. *)
Definition select_input (params : PipelineParameters)
    (project_paths : ProjectPaths) : M string :=
  if Py.is_True (fill_chain params)
  then to_log ("Chains were filled: using " +:+ filled_chain project_paths
               +:+ " as input") ;;
       ret (filled_chain project_paths)
  else to_log ("Fill chains step was skipped: using "
               +:+ merged_chain project_paths +:+ " as input") ;;
       ret (merged_chain project_paths).

Definition chain_cleaner_cmd (params : PipelineParameters)
    (project_paths : ProjectPaths)
    (executables : step_executables.StepExecutables)
    (output_chain : string) : list string :=
  [step_executables.chain_cleaner executables;
   before_cleaning_chain project_paths;
   seq_1_dir params;
   seq_2_dir params;
   output_chain;
   clean_removed_suspects project_paths;
   "-linearGap=" +:+ chain_linear_gap params;
   "-tSizes=" +:+ seq_1_len params;
   "-qSizes=" +:+ seq_2_len params]
  ++ Py.split_ws (clean_chain_parameters params).

Definition do_chains_clean (params : PipelineParameters)
    (project_paths : ProjectPaths)
    (executables : step_executables.StepExecutables) : M unit :=
  input_chain <- select_input params project_paths ;;
  found <- isfile input_chain ;;
  if negb found
  then raise (RuntimeError ("Cannot find " +:+ input_chain))
  else
    move input_chain (before_cleaning_chain project_paths) ;;
    to_log ("Chain to be cleaned saved to: "
            +:+ before_cleaning_chain project_paths) ;;
    let output_chain := Py.removesuffix input_chain ".gz" in
    temp_env_path <-
      match environ_PATH env with
      | Some p => ret (chain_clean_micro_env project_paths +:+ ":" +:+ p)
      | None => raise (KeyError "PATH")
      end ;;
    let chain_cleaner_cmd :=
      chain_cleaner_cmd params project_paths executables output_chain in
    to_log "Executing the following chain cleaner command:" ;;
    to_log (Py.str_join " " chain_cleaner_cmd) ;;
    open_write (chain_cleaner_log project_paths) ;;
    process <- spawn env (Argv chain_cleaner_cmd) (Some temp_env_path) ;;
    handle_write (chain_cleaner_log project_paths) (stdout process) ;;
    (if negb (returncode process =? 0)%Z
     then
       let is_macos := String.eqb (platform_system env) "Darwin" in
       if is_macos
       then to_log macos_message
       else raise (PipelineSubprocessError (died_message (stderr process)))
     else ret tt) ;;
    to_log ("Chain clean results saved to: " +:+ output_chain) ;;
    let gzip_cmd := ["gzip"; output_chain] in
    try_except (subprocess_check_call env gzip_cmd)
      (fun e => match e with
                | CalledProcessError _ _ =>
                    Some (raise (PipelineSubprocessError
                                   "gzip command at clean chain step failed"))
                | _ => None
                end) ;;
    to_log "Chain clean DONE".
End Step.

(** The events of a run up to and including the start of the cleaner. *)
Definition events_to_cleaner (params : PipelineParameters) (pp : ProjectPaths)
    (ex : step_executables.StepExecutables) (path : string)
    (seen : gmap string node) : list event :=
  let fill := Py.is_True (fill_chain params) in
  let input := if fill then filled_chain pp else merged_chain pp in
  let cmd := chain_cleaner_cmd params pp ex
               (Py.removesuffix input ".gz") in
  [EvLog (if fill
          then "Chains were filled: using " +:+ filled_chain pp +:+ " as input"
          else "Fill chains step was skipped: using " +:+ merged_chain pp
               +:+ " as input");
   EvMove input (before_cleaning_chain pp);
   EvLog ("Chain to be cleaned saved to: " +:+ before_cleaning_chain pp);
   EvLog "Executing the following chain cleaner command:";
   EvLog (Py.str_join " " cmd);
   EvSpawn (Argv cmd) (Some (chain_clean_micro_env pp +:+ ":" +:+ path)) seen].

End clean_chain_step.

(** ** The parameter store *)

Module parameter_store.

(** Modelled from the spec: the parameter store (modules/parameters.py is
    not among the sources). A parameter record is a flat mapping of
    option name to value (integers, strings, flags); the derived
    sequence directories and sequence lengths are entries of the same
    mapping. [persist] writes the record as one JSON object into the
    project directory, [load] reads that object back. *)
Inductive value :=
| VInt (z : Z)
| VStr (s : string)
| VFlag (b : bool).

Inductive json_atom :=
| JNull
| JBool (b : bool)
| JNumber (z : Z)
| JString (s : string).

(** The JSON documents of the model: an atom, or a flat object. *)
Inductive json :=
| JAtom (a : json_atom)
| JObject (members : list (string * json_atom)).

Definition to_json (v : value) : json_atom :=
  match v with
  | VInt z => JNumber z
  | VStr s => JString s
  | VFlag b => JBool b
  end.

Definition of_json (j : json_atom) : option value :=
  match j with
  | JNumber z => Some (VInt z)
  | JString s => Some (VStr s)
  | JBool b => Some (VFlag b)
  | JNull => None
  end.

Definition member_to_json (kv : string * value) : string * json_atom :=
  (kv.1, to_json kv.2).

Definition member_of_json (kj : string * json_atom) : option (string * value) :=
  match of_json kj.2 with
  | Some v => Some (kj.1, v)
  | None => None
  end.

Definition dump (x : gmap string value) : json :=
  JObject (map member_to_json (map_to_list x)).

Definition parse (j : json) : option (gmap string value) :=
  match j with
  | JObject members =>
      match mapM member_of_json members with
      | Some l => Some (list_to_map l)
      | None => None
      end
  | JAtom _ => None
  end.

Section Store.
(** The name of the parameter dump inside the project directory. *)
Variable PARAMS_JSON : string.

(** Modelled from the spec: [build(cli_args)], which adds to the
    options the derived fields computed from the genome metadata. *)
Definition build (options : gmap string value)
    (seq_1_dir seq_2_dir : string) (seq_1_len seq_2_len : Z)
  : gmap string value :=
  <["seq_1_dir" := VStr seq_1_dir]>
    (<["seq_2_dir" := VStr seq_2_dir]>
       (<["seq_1_len" := VInt seq_1_len]>
          (<["seq_2_len" := VInt seq_2_len]> options))).

(** Modelled from the spec: [persist(record, project_dir)], on the
    JSON documents of the filesystem. *)
Definition persist (x : gmap string value) (project_dir : string)
    (docs : gmap string json) : gmap string json :=
  <[Py.path_join project_dir [PARAMS_JSON] := dump x]> docs.

(** Modelled from the spec: [load(project_dir)]. *)
Definition load (project_dir : string) (docs : gmap string json)
  : option (gmap string value) :=
  match docs !! Py.path_join project_dir [PARAMS_JSON] with
  | Some j => parse j
  | None => None
  end.
End Store.

End parameter_store.

(** ** Sample inputs

    Concrete constants, environments and worlds on which the theorems
    below are instantiated. The constants are sample values of
    constants.py. *)

Module Samples.

Definition constants : Constants :=
  MkConstants "HL_kent_binaries" "chain_clean_micro_env"
    "run_lastz.py" "chain_gap_filler.py"
    "faToTwoBit" "twoBitToFa" "pslSortAcc" "axtChain" "chainAntiRepeat"
    "chainMergeSort" "chainCleaner" "chainSort" "chainScore" "lastz" "chainNet"
    "temp_concat_lastz_output" "temp_axtChain" "sort_temp" "sorted_psl"
    "split_psl" "chain_output" "chains_joblist.txt" 1000000.

Definition params (fill : Py.pyval) : PipelineParameters :=
  MkParams fill "-doPairs  -minBrokenChainScore=75000" "/p/target.2bit" "/p/query.2bit"
    "/p/target.chrom.sizes" "/p/query.chrom.sizes" 1000 "loose".

Definition paths : ProjectPaths :=
  MkPaths "/p/filled.chain.gz" "/p/merged.chain.gz" "/p/before_cleaning.chain.gz"
    "/r/chain_clean_micro_env" "/p/removed_suspects.bed" "/p/chain_cleaner.log".

(** Every external program exits with status [rc], prints [err] on its
    standard error and leaves the filesystem as it found it. *)
Definition env_exit (platform : string) (rc : Z) (err : string) : Env :=
  MkEnv "/work" (Some "/usr/bin") platform (fun _ => None)
    (fun _ _ f => Some (Completed rc "" err, f)).

(** The chain cleaner exits with status 1 and prints [err] on its standard
    error; every other program (gzip) succeeds. *)
Definition env_cleaner_fails (platform err : string) : Env :=
  MkEnv "/work" (Some "/usr/bin") platform (fun _ => None)
    (fun cmd _ f =>
       match cmd with
       | Argv ("gzip" :: _) => Some (Completed 0 "" "", f)
       | _ => Some (Completed 1 "cleaner output" err, f)
       end).

(** A machine on which [shutil.which] finds [tool] (and nothing else). *)
Definition env_with (tool path : string) : Env :=
  MkEnv "/work" (Some "/usr/bin") "Linux"
    (fun n => if String.eqb n tool then Some path else None)
    (fun _ _ f => Some (Completed 0 "" "", f)).

Definition empty_world : World := MkWorld ∅ [].

(** A project after the cat step: two concatenated files. *)
Definition cat_fs : gmap string node :=
  <["/p/cat" := Dir]>
    (<["/p/cat/a.psl.gz" := File ""]>
       (<["/p/cat/b.psl.gz" := File ""]>
          (<["/p/run" := Dir]> ∅))).

Definition cat_world : World := MkWorld cat_fs [].

(** The same project when an earlier run left its sort directory
    behind, with a file in it. *)
Definition stale_world : World :=
  MkWorld (<["/p/run/sort_temp" := Dir]>
             (<["/p/run/sort_temp/left_over" := File "old"]> cat_fs)) [].

(** A project after bundling: two bundles. *)
Definition bundles_world : World :=
  MkWorld (<["/p/run" := Dir]>
             (<["/p/run/split_psl" := Dir]>
                (<["/p/run/split_psl/bundle.1.psl" := File ""]>
                   (<["/p/run/split_psl/bundle.2.psl" := File ""]> ∅)))) [].

(** A project where both the filled and the merged chains exist. *)
Definition chains_world : World :=
  MkWorld (<["/p/filled.chain.gz" := File "filled"]>
             (<["/p/merged.chain.gz" := File "merged"]> ∅)) [].

Definition executables : step_executables.StepExecutables :=
  step_executables.MkStepExecutables "/r" "/r/HL_kent_binaries"
    "/r/chain_clean_micro_env" []
    (Some "/r/standalone_scripts/run_lastz.py")
    (Some "/r/standalone_scripts/chain_gap_filler.py")
    "/usr/bin/faToTwoBit" "/usr/bin/twoBitToFa" "/usr/bin/pslSortAcc"
    "/usr/bin/axtChain" "/usr/bin/chainAntiRepeat" "/usr/bin/chainMergeSort"
    "/usr/bin/chainCleaner" "/usr/bin/chainSort" "/usr/bin/chainScore"
    "/usr/bin/lastz" (Some true).

(** An [argparse] parser that rejects everything. *)
Definition rejecting_parser (argv : list string) : M make_chains.Namespace :=
  raise (SystemExit 2).

(** A machine on which no program can be started. *)
Definition env_no_programs : Env :=
  MkEnv "/work" (Some "/usr/bin") "Linux" (fun _ => None) (fun _ _ _ => None).

(** A process without a [PATH] variable. *)
Definition env_no_PATH : Env :=
  MkEnv "/work" None "Linux" (fun _ => None)
    (fun _ _ f => Some (Completed 0 "" "", f)).

(** A checkout where git prints the commit hash but cannot name the
    branch. *)
Definition env_git_detached : Env :=
  MkEnv "/work" (Some "/usr/bin") "Linux" (fun _ => None)
    (fun cmd _ f =>
       match cmd with
       | Shell line _ =>
           if String.eqb line "git rev-parse HEAD"
           then Some (Completed 0 ("0a1b2c3" +:+ nl) "", f)
           else Some (Completed 128 "" "fatal", f)
       | Argv _ => Some (Completed 0 "" "", f)
       end).

(** A machine on which [shutil.which] finds every tool in /usr/bin. *)
Definition env_installed : Env :=
  MkEnv "/work" (Some "/usr/bin") "Linux" (fun n => Some ("/usr/bin/" +:+ n))
    (fun _ _ f => Some (Completed 0 "" "", f)).

(** An installation in /r with all its stand-alone scripts. *)
Definition installed_world : World :=
  MkWorld (<["/r/standalone_scripts/partitionSequence.pl" := File ""]>
             (<["/r/standalone_scripts/run_lastz.py" := File ""]>
                (<["/r/standalone_scripts/split_chain_into_random_parts.pl" := File ""]>
                   (<["/r/standalone_scripts/bundle_chrom_split_psl_files.perl" := File ""]>
                      (<["/r/standalone_scripts/chain_gap_filler.py" := File ""]> ∅))))) [].

(** A project directory after the cat step, laid out with the sample
    constants. *)
Definition project_world : World :=
  MkWorld (<["/p/temp_concat_lastz_output" := Dir]>
             (<["/p/temp_concat_lastz_output/a.psl.gz" := File ""]> ∅)) [].

(** A bundler that writes two bundles into the split directory. *)
Definition write_two_bundles (sorted_psl_dir seq_1_len split_psl_dir : string)
    (max_bases : Z) : M unit :=
  (f <- get_fs ;;
   put_fs (<[Py.path_join split_psl_dir ["bundle.1.psl"] := File "psl 1"]>
             (<[Py.path_join split_psl_dir ["bundle.2.psl"] := File "psl 2"]> f)))%py.

(** A runner whose [execute] raises. *)
Definition failing_runner (joblist_path run_dir : string) : M unit :=
  raise (RuntimeError "nextflow failed").

(** A [cleanup] that leaves a mark in the trace. *)
Definition logged_cleanup : M unit := emit (EvCall "NextflowWrapper.cleanup" []).

(** The chain-run step on the sample project, with the bundler above and
    the runner given. *)
Definition chain_run (nextflow_execute : string -> string -> M unit)
  : result unit * World :=
  chain_run_step.do_chain_run (env_exit "Linux" 0 "") constants
    write_two_bundles nextflow_execute logged_cleanup "/r/lastz.config"
    "/p" (params (Py.PyBool true)) executables project_world.

(** The commands of the two bundles of that run. *)
Definition chain_jobs : list string :=
  ["/usr/bin/axtChain -psl -verbose=0 -minScore=1000 -linearGap=loose "
   +:+ "/p/temp_axtChain/split_psl/bundle.1.psl /p/target.2bit /p/query.2bit stdout | "
   +:+ "/usr/bin/chainAntiRepeat /p/target.2bit /p/query.2bit stdin "
   +:+ "/p/temp_axtChain/chain_output/bundle.1.psl.chain";
   "/usr/bin/axtChain -psl -verbose=0 -minScore=1000 -linearGap=loose "
   +:+ "/p/temp_axtChain/split_psl/bundle.2.psl /p/target.2bit /p/query.2bit stdout | "
   +:+ "/usr/bin/chainAntiRepeat /p/target.2bit /p/query.2bit stdin "
   +:+ "/p/temp_axtChain/chain_output/bundle.2.psl.chain"].

(** The namespace of a command line that names two genomes and leaves
    the options at sample defaults. *)
Definition namespace : make_chains.Namespace :=
  make_chains.MkNamespace "hg38" "mm10" "/g/hg38.2bit" "/g/mm10.2bit" (Some "/p") None false
    9400 2000 3000 2400 175000000 0 4000 50000000 10000 10000
    1 1 25000 5000 20000 20000 30 30 2000 3000 15000 50000
    "medium" 50000 1 100000 "-doPairs".

End Samples.

(** * Properties *)

(** ** Python primitives on examples *)

Example str_int_ex : map Py.str_int [0; 1000; -7]%Z = ["0"; "1000"; "-7"].
Proof. reflexivity. Qed.

Example removesuffix_ex :
  map (fun s => Py.removesuffix s ".gz") ["a/b.chain.gz"; "a/b.chain"; ".gz"; "gz"]
  = ["a/b.chain"; "a/b.chain"; ""; "gz"].
Proof. reflexivity. Qed.

Example split_ws_ex :
  Py.split_ws ("  -a=1 " +:+ String "009" "-b" +:+ nl +:+ "x ") = ["-a=1"; "-b"; "x"].
Proof. reflexivity. Qed.

Example path_join_ex :
  [Py.path_join "/r" ["standalone_scripts"; "run_lastz.py"];
   Py.path_join "/r/" ["x"]; Py.path_join "" ["x"]; Py.path_join "/r" ["/x"]]
  = ["/r/standalone_scripts/run_lastz.py"; "/r/x"; "x"; "/x"].
Proof. reflexivity. Qed.

Example normpath_ex :
  map Py.normpath [""; "/a/./b/../c/"; "//a"; "///a"; "a/../.."; "/.."; "./x"]
  = ["."; "/a/c"; "//a"; "/a"; ".."; "/"; "x"].
Proof. reflexivity. Qed.

Example abspath_ex :
  map (Py.abspath "/home/u") ["x/../y"; "/opt/t"; ""] = ["/home/u/y"; "/opt/t"; "/home/u"].
Proof. reflexivity. Qed.

Example strip_ex : Py.strip ("  abc def " +:+ nl) = "abc def".
Proof. reflexivity. Qed.

Example contains_ex :
  (Py.contains "a/b" "/", Py.contains "ab" "/", Py.contains "" "", Py.contains "abc" "bc")
  = (true, false, true, true).
Proof. reflexivity. Qed.

(** ** The command-line entry point *)

(** C9. With fewer than five tokens on the command line, [parse_args]
    prints the help text and leaves with status 1; the parser's
    validation is not reached, and [main] ends there too, whatever the
    parser and the pipeline's collaborators are. *)
Theorem parse_args_short_argv_exits
    (env : Env) (SCRIPT_LOCATION version : string)
    (app_parse_args : list string -> M make_chains.Namespace)
    {SM P RT : Type}
    (odm : make_chains.Namespace -> M string)
    (smn : string -> make_chains.Namespace -> M SM)
    (ppn : make_chains.Namespace -> M P)
    (setup_logger : string -> M unit)
    (dump_to_json : P -> string -> M unit)
    (sgs : string -> string -> string -> make_chains.StepExecutables -> M RT)
    (execute_steps : SM -> string -> P -> make_chains.StepExecutables -> M unit)
    (argv : list string) (w : World) :
  length argv < 5 ->
  make_chains.parse_args app_parse_args argv w
    = (Raise (SystemExit 1), MkWorld (fs w) (trace w ++ [EvPrintHelp]))
  /\ make_chains.main env SCRIPT_LOCATION version app_parse_args
       odm smn ppn setup_logger dump_to_json sgs execute_steps argv w
    = (Raise (SystemExit 1), MkWorld (fs w) (trace w ++ [EvPrintHelp])).
Proof.
  intros Hlen.
  assert (Hp : make_chains.parse_args app_parse_args argv w
               = (Raise (SystemExit 1), MkWorld (fs w) (trace w ++ [EvPrintHelp]))).
  { unfold make_chains.parse_args.
    destruct (Nat.ltb_spec (length argv) 5) as [_|Hge]; [reflexivity | lia]. }
  split; [exact Hp|].
  unfold make_chains.main, bind at 1. now rewrite Hp.
Qed.

(** C9 on a command line of three tokens. *)
Lemma parse_args_short_argv_exits_witness :
  make_chains.parse_args Samples.rejecting_parser ["make_chains.py"; "hg38"; "mm10"]
    Samples.empty_world
  = (Raise (SystemExit 1), MkWorld ∅ [EvPrintHelp]).
Proof.
  apply (proj1 (parse_args_short_argv_exits
                  (Samples.env_exit "Linux" 0 "") "/r" "2.0" Samples.rejecting_parser
                  (SM := unit) (P := unit) (RT := unit)
                  (fun _ => ret "/p") (fun _ _ => ret tt) (fun _ => ret tt)
                  (fun _ => ret tt) (fun _ _ => ret tt) (fun _ _ _ _ => ret tt)
                  (fun _ _ _ _ => ret tt)
                  ["make_chains.py"; "hg38"; "mm10"] Samples.empty_world
                  ltac:(simpl; lia))).
Defined.

(** ** Strings *)

Lemma str_app_assoc (a b c : string) : (a +:+ b) +:+ c = a +:+ (b +:+ c).
Proof.
  induction a as [|x a IH]; [reflexivity|].
  change (String x ((a +:+ b) +:+ c) = String x (a +:+ (b +:+ c))).
  by rewrite IH.
Qed.

Lemma str_app_nil_r (a : string) : a +:+ "" = a.
Proof.
  induction a as [|x a IH]; [reflexivity|].
  change (String x (a +:+ "") = String x a). by rewrite IH.
Qed.

Lemma str_to_list_app (a b : string) :
  String.list_ascii_of_string (a +:+ b)
  = String.list_ascii_of_string a ++ String.list_ascii_of_string b.
Proof.
  induction a as [|x a IH]; [reflexivity|].
  change (x :: String.list_ascii_of_string (a +:+ b)
          = x :: (String.list_ascii_of_string a ++ String.list_ascii_of_string b)).
  by rewrite IH.
Qed.

Lemma str_app_inv_tail (a b s : string) : a +:+ s = b +:+ s -> a = b.
Proof.
  intros H. apply (f_equal String.list_ascii_of_string) in H.
  rewrite !str_to_list_app in H. apply app_inv_tail in H.
  apply (f_equal String.string_of_list_ascii) in H.
  by rewrite !String.string_of_list_ascii_of_string in H.
Qed.

Lemma prefix_app (p s : string) : String.prefix p (p +:+ s) = true.
Proof.
  induction p as [|x p IH]; [by destruct s|].
  change (String.prefix (String x p) (String x (p +:+ s)) = true).
  simpl. destruct (ascii_dec x x); [exact IH | congruence].
Qed.

Lemma contains_unfold (s x : string) :
  Py.contains s x
  = String.prefix x s
    || match s with EmptyString => false | String _ s' => Py.contains s' x end.
Proof. by destruct s. Qed.

Lemma contains_app (a x b : string) : Py.contains (a +:+ x +:+ b) x = true.
Proof.
  induction a as [|y a IH].
  - change ("" +:+ x +:+ b) with (x +:+ b).
    rewrite contains_unfold, prefix_app. reflexivity.
  - change (String y a +:+ x +:+ b) with (String y (a +:+ x +:+ b)).
    simpl. rewrite IH. apply orb_true_r.
Qed.

Lemma prefix_app_l (x s t : string) :
  String.prefix x s = true -> String.prefix x (s +:+ t) = true.
Proof.
  revert s. induction x as [|a x IH]; intros s H.
  - by destruct (s +:+ t).
  - destruct s as [|b s]; [discriminate H|].
    change (String b s +:+ t) with (String b (s +:+ t)).
    simpl in *. destruct (ascii_dec a b); [by apply IH | discriminate H].
Qed.

Lemma contains_app_r (p s x : string) :
  Py.contains s x = true -> Py.contains (p +:+ s) x = true.
Proof.
  intros H. induction p as [|c p IH]; [exact H|].
  change (String c p +:+ s) with (String c (p +:+ s)).
  rewrite contains_unfold, IH. apply orb_true_r.
Qed.

Lemma contains_app_l (s t x : string) :
  Py.contains s x = true -> Py.contains (s +:+ t) x = true.
Proof.
  induction s as [|c s IH]; rewrite contains_unfold; intros H.
  - rewrite orb_false_r in H. rewrite contains_unfold, (prefix_app_l _ _ _ H).
    reflexivity.
  - change (String c s +:+ t) with (String c (s +:+ t)). rewrite contains_unfold.
    apply orb_true_iff in H as [H|H].
    + change (String c (s +:+ t)) with (String c s +:+ t).
      by rewrite (prefix_app_l _ _ _ H).
    + rewrite (IH H). apply orb_true_r.
Qed.

Lemma strip_prefix_app (pre s r : string) :
  strip_prefix pre s = Some r -> s = pre +:+ r.
Proof.
  revert s. induction pre as [|a pre IH]; intros s H; simpl in H.
  - by injection H as ->.
  - destruct s as [|b s]; [discriminate|].
    destruct (Ascii.eqb_spec a b) as [->|]; [|discriminate].
    change (String b s = String b (pre +:+ r)). f_equal. by apply IH.
Qed.

Lemma contains_no_slash_start (n : string) :
  Py.contains n "/" = false -> Py.startswith n "/" = false.
Proof.
  unfold Py.startswith. destruct n; simpl; intros H; [reflexivity|].
  by apply orb_false_elim in H as [H _].
Qed.

Lemma startswith_app_nonempty (n s : string) (p : ascii) :
  n <> "" -> Py.startswith (n +:+ s) (String p "") = Py.startswith n (String p "").
Proof.
  unfold Py.startswith. destruct n as [|a n]; [congruence|]. intros _.
  change (String a n +:+ s) with (String a (n +:+ s)). simpl.
  destruct (ascii_dec p a); [|reflexivity].
  destruct (n +:+ s); destruct n; reflexivity.
Qed.

Lemma join1_relative (d b : string) :
  Py.startswith b "/" = false -> Py.join1 d b = dir_prefix d +:+ b.
Proof.
  intros Hb. unfold dir_prefix, Py.join1. rewrite Hb.
  change (Py.startswith "" "/") with false. cbv iota.
  destruct (String.eqb d "" || Py.endswith d "/").
  - by rewrite str_app_nil_r.
  - by rewrite str_app_nil_r, str_app_assoc.
Qed.

(** ** Absolute paths *)

Lemma prefix_cons a s1 b s2 :
  String.prefix (String a s1) (String b s2)
  = if ascii_dec a b then String.prefix s1 s2 else false.
Proof. reflexivity. Qed.

Lemma prefix_nil s : String.prefix "" s = true.
Proof. by destruct s. Qed.

Lemma isabs_cons s : Py.isabs (String "/" s) = true.
Proof.
  unfold Py.isabs, Py.startswith. rewrite prefix_cons.
  destruct (ascii_dec "/" "/"); [apply prefix_nil | congruence].
Qed.

Lemma isabs_inv p : Py.isabs p = true -> exists p', p = String "/" p'.
Proof.
  unfold Py.isabs, Py.startswith. destruct p as [|a p].
  - intros H. discriminate H.
  - rewrite prefix_cons. destruct (ascii_dec "/" a) as [<-|]; [|intros H; discriminate H].
    by exists p.
Qed.

Lemma isabs_app p s : Py.isabs p = true -> Py.isabs (p +:+ s) = true.
Proof.
  intros [p' ->]%isabs_inv.
  change (String "/" p' +:+ s) with (String "/" (p' +:+ s)). apply isabs_cons.
Qed.

Lemma isabs_join1 d b : Py.isabs d = true -> Py.isabs (Py.join1 d b) = true.
Proof.
  intros Hd. unfold Py.join1.
  destruct (Py.startswith b "/") eqn:Hb; [exact Hb|].
  destruct (_ || _); by apply isabs_app.
Qed.

Lemma isabs_path_join d l : Py.isabs d = true -> Py.isabs (Py.path_join d l) = true.
Proof.
  unfold Py.path_join. revert d. induction l as [|b l IH]; intros d Hd; simpl; [done|].
  apply IH. by apply isabs_join1.
Qed.

Lemma isabs_normpath p : Py.isabs p = true -> Py.isabs (Py.normpath p) = true.
Proof.
  intros [p' ->]%isabs_inv. unfold Py.normpath.
  change (String.eqb (String "/" p') "") with false. cbv iota.
  replace (Py.startswith (String "/" p') "/") with true
    by (symmetry; apply isabs_cons).
  cbv iota.
  destruct (Py.startswith (String "/" p') "//" && negb (Py.startswith (String "/" p') "///"));
    cbn [Nat.eqb Py.slashes]; cbv iota.
  all: match goal with
       | |- context [String "/" ?x +:+ ?y] =>
           change (String "/" x +:+ y) with (String "/" (x +:+ y))
       end.
  all: cbn [String.eqb]; cbv iota.
  all: apply isabs_cons.
Qed.

Lemma isabs_abspath cwd p : Py.isabs cwd = true -> Py.isabs (Py.abspath cwd p) = true.
Proof.
  intros Hcwd. unfold Py.abspath. apply isabs_normpath.
  destruct (Py.isabs p) eqn:Hp; [exact Hp | by apply isabs_join1].
Qed.

Lemma str_join_mentions (sep : string) (g : string -> string) (l : list string) (x : string) :
  In x l -> exists a b, Py.str_join sep (map g l) = a +:+ g x +:+ b.
Proof.
  unfold Py.str_join. induction l as [|y l IH]; [intros []|].
  intros [->|Hx].
  - destruct l as [|z l].
    + exists "", "". cbn [map String.concat]. by rewrite str_app_nil_r.
    + exists "", (sep +:+ String.concat sep (map g (z :: l))). reflexivity.
  - destruct (IH Hx) as (a & b & E). destruct l as [|z l]; [destruct Hx|].
    exists (g y +:+ sep +:+ a), b.
    change (String.concat sep (map g (y :: z :: l)))
      with (g y +:+ sep +:+ String.concat sep (map g (z :: l))).
    rewrite E. by rewrite !str_app_assoc.
Qed.

(** ** Running the monad by hand *)

Lemma events_since_app f t f' ev :
  events_since (MkWorld f t) (MkWorld f' (t ++ ev)) = ev.
Proof. unfold events_since. simpl. by rewrite drop_app_length. Qed.

Lemma events_since_nil f t f' :
  events_since (MkWorld f t) (MkWorld f' t) = [].
Proof. unfold events_since. simpl. by rewrite drop_all. Qed.

(** Unfold the primitives in [H] down to the world they act on. *)
Ltac run_unfold H :=
  unfold listdir, makedirs_exist_ok, subprocess_call, subprocess_check_call,
    subprocess_run_shell_check, spawn, rmtree, move, open_write, handle_write, isfile,
    exists_, to_log, try_except, bind, ret, raise, get_fs, put_fs, emit in H;
  cbn beta iota zeta delta [fs trace] in H.

(** Split [H] on the next test the run depends on: a lookup in the
    filesystem, a boolean, or what an external program does. *)
Ltac run_case H :=
  match type of H with
  | context [match ?f !! ?p with _ => _ end] =>
      lazymatch f with context [match _ with _ => _ end] => fail | _ => idtac end;
      let E := fresh "Hlk" in destruct (f !! p) as [[?|]|] eqn:E
  | context [if ?b then _ else _] =>
      lazymatch b with context [match _ with _ => _ end] => fail | _ => idtac end;
      let E := fresh "Hb" in destruct b eqn:E
  | context [match run ?e ?c ?po ?f with _ => _ end] =>
      let E := fresh "Hrun" in destruct (run e c po f) as [[? ?]|] eqn:E
  end; cbn beta iota zeta delta [fs trace] in H.

Lemma is_dir_insert f p : is_dir (<[p := Dir]> f) p = true.
Proof. unfold is_dir. by rewrite lookup_insert_eq. Qed.

Lemma is_dir_lookup f p : f !! p = Some Dir -> is_dir f p = true.
Proof. unfold is_dir. by intros ->. Qed.

Lemma is_dir_insert_mono f p q :
  is_dir f p = true -> is_dir (<[q := Dir]> f) p = true.
Proof.
  unfold is_dir. intros H. destruct (decide (q = p)) as [->|Hne].
  - by rewrite lookup_insert_eq.
  - by rewrite lookup_insert_ne.
Qed.

Lemma insert_keeps (f : gmap string node) p q n :
  f !! p = None -> f !! q = Some n -> <[p := Dir]> f !! q = Some n.
Proof.
  intros Hp Hq. rewrite lookup_insert_ne; [done|]. intros ->. congruence.
Qed.

Lemma removed_self p (g : gmap string node) : removed p g !! p = None.
Proof.
  unfold removed. apply map_lookup_filter_None. right. intros x _.
  simpl. rewrite String.eqb_refl. simpl. auto.
Qed.

Lemma removed_below p q (g : gmap string node) :
  below p q = true -> removed p g !! q = None.
Proof.
  intros Hq. unfold removed. apply map_lookup_filter_None. right. intros x _.
  simpl. rewrite Hq, orb_true_r. simpl. auto.
Qed.

(** ** The sort phase of the chain-run step *)

Section SortPhase.
Variable env : Env.
Variable c : Constants.

(** What a run of the sort phase that started the sort looks like. *)
Lemma psl_bundle_sort_inv cat crd psa f t r w' cmd po seen :
  chain_run_step.psl_bundle_sort env c cat crd psa (MkWorld f t) = (r, w') ->
  In (EvSpawn cmd po seen) (events_since (MkWorld f t) w') ->
  let tmp := Py.path_join crd [PSL_SORT_TEMP_DIRNAME c] in
  let sorted := Py.path_join crd [SORTED_PSL_DIRNAME c] in
  is_dir f cat = true
  /\ cmd = Argv (chain_run_step.sort_cmd psa sorted tmp
                  (Py.str_join " " (map (fun x => Py.path_join cat [x]) (entries f cat))))
  /\ po = None
  /\ is_dir seen tmp = true
  /\ (forall p n, f !! p = Some n -> seen !! p = Some n)
  /\ trace w' = t ++ [EvSpawn cmd po seen]
  /\ match run env cmd None seen with
     | None => (exists m, r = Raise (OSError m)) /\ fs w' = seen
     | Some (out, g) =>
         match g !! tmp with
         | Some Dir => r = Ok sorted /\ fs w' = removed tmp g
         | _ => (exists m, r = Raise (OSError m)) /\ fs w' = g
         end
     end.
Proof.
  intros Hrun Hin. cbv zeta. cbn [Py.path_join fold_left] in *.
  unfold chain_run_step.psl_bundle_sort in Hrun.
  run_unfold Hrun.
  repeat run_case Hrun.
  all: inversion Hrun; subst; clear Hrun.
  all: cbn [Py.path_join fold_left fs trace] in *.
  all: rewrite ?events_since_nil, ?events_since_app in Hin.
  all: try (destruct Hin; fail).
  all: destruct Hin as [Hin|[]]; inversion Hin; subst; clear Hin.
  all: repeat match goal with
       | |- _ /\ _ => split
       | |- _ = _ => reflexivity
       end; try assumption.
  all: try match goal with H : run _ _ _ _ = _ |- _ => rewrite H end.
  all: try match goal with
           | H : ?g !! ?p = _ |- match ?g !! ?p with _ => _ end => rewrite H
           end.
  all: eauto using is_dir_insert, is_dir_lookup, insert_keeps, is_dir_insert_mono.
Qed.

(** C10. Whenever the concatenation directory lists a non-empty set of
    files, the sort that [psl_bundle] starts gets an argument vector of
    exactly five elements: the tool, [nohead], the sorted directory,
    the temporary directory, and one element that holds the paths of
    all the files, joined by single spaces. *)
Theorem psl_bundle_sort_argv_has_five_elements
    cat crd psa w names r w' cmd po seen :
  listdir cat w = (Ok names, w) ->
  names <> [] ->
  chain_run_step.psl_bundle_sort env c cat crd psa w = (r, w') ->
  In (EvSpawn cmd po seen) (events_since w w') ->
  exists argv,
    cmd = Argv argv
    /\ length argv = 5
    /\ argv !! 0 = Some psa
    /\ argv !! 4 = Some (Py.str_join " " (map (fun x => Py.path_join cat [x]) names)).
Proof.
  destruct w as [f t]. intros Hls _ Hrun Hin.
  destruct (psl_bundle_sort_inv _ _ _ _ _ _ _ _ _ _ Hrun Hin)
    as (Hcat & -> & _).
  unfold listdir, bind, get_fs in Hls. cbn [fs] in Hls.
  rewrite Hcat in Hls. injection Hls as <-.
  eexists. split; [reflexivity|]. repeat split.
Qed.

(** C8, as amended. When the sort phase starts the sort, the temporary
    sort directory exists, and everything the filesystem held before
    is still there: the directory is created when absent and kept as it
    is when present. Whenever the sort subprocess then exits, with any
    status, leaving the directory in place, the phase succeeds and the
    directory and everything below it are gone. *)
Theorem psl_bundle_sort_temp_dir_lifecycle
    cat crd psa w r w' cmd po seen :
  chain_run_step.psl_bundle_sort env c cat crd psa w = (r, w') ->
  In (EvSpawn cmd po seen) (events_since w w') ->
  let tmp := Py.path_join crd [PSL_SORT_TEMP_DIRNAME c] in
  is_dir seen tmp = true
  /\ (forall p n, fs w !! p = Some n -> seen !! p = Some n)
  /\ (forall out g,
        run env cmd po seen = Some (out, g) ->
        is_dir g tmp = true ->
        r = Ok (Py.path_join crd [SORTED_PSL_DIRNAME c])
        /\ path_exists (fs w') tmp = false
        /\ (forall p, below tmp p = true -> fs w' !! p = None)).
Proof.
  destruct w as [f t]. intros Hrun Hin tmp.
  destruct (psl_bundle_sort_inv _ _ _ _ _ _ _ _ _ _ Hrun Hin)
    as (_ & -> & -> & Hseen & Hkeep & _ & Hafter).
  split; [exact Hseen|]. split; [exact Hkeep|].
  intros out g Hchild Hg. rewrite Hchild in Hafter.
  unfold is_dir in Hg. fold tmp in Hafter.
  destruct (g !! tmp) as [[?|]|]; try discriminate.
  destruct Hafter as [-> ->]. split; [reflexivity|]. split.
  - unfold path_exists. by rewrite removed_self.
  - intros p Hp. by apply removed_below.
Qed.

End SortPhase.

(** C10 on the sample project: two concatenated files, one element. *)
Lemma psl_bundle_sort_argv_has_five_elements_witness :
  exists argv,
    Argv ["pslSortAcc"; "nohead"; "/p/run/sorted_psl"; "/p/run/sort_temp";
          "/p/cat/a.psl.gz /p/cat/b.psl.gz"] = Argv argv
    /\ length argv = 5
    /\ argv !! 0 = Some "pslSortAcc"
    /\ argv !! 4 = Some (Py.str_join " " (map (fun x => Py.path_join "/p/cat" [x])
                                            ["a.psl.gz"; "b.psl.gz"])).
Proof.
  eapply (psl_bundle_sort_argv_has_five_elements
            (Samples.env_exit "Linux" 0 "") Samples.constants
            "/p/cat" "/p/run" "pslSortAcc" Samples.cat_world
            ["a.psl.gz"; "b.psl.gz"]).
  - vm_compute. reflexivity.
  - discriminate.
  - vm_compute. reflexivity.
  - vm_compute. left. reflexivity.
Defined.

(** C8 on a project whose sort directory was left behind and whose sort
    exits with status 1: the phase succeeds and the directory is gone. *)
Lemma psl_bundle_sort_temp_dir_lifecycle_witness :
  let out := chain_run_step.psl_bundle_sort (Samples.env_exit "Linux" 1 "")
               Samples.constants "/p/cat" "/p/run" "pslSortAcc" Samples.stale_world in
  out.1 = Ok "/p/run/sorted_psl"
  /\ path_exists (fs out.2) "/p/run/sort_temp" = false.
Proof.
  cbv zeta.
  edestruct (psl_bundle_sort_temp_dir_lifecycle
               (Samples.env_exit "Linux" 1 "") Samples.constants
               "/p/cat" "/p/run" "pslSortAcc" Samples.stale_world)
    as (_ & _ & Hexit).
  - apply surjective_pairing.
  - vm_compute. left. reflexivity.
  - edestruct Hexit as (Hr & Hgone & _).
    + vm_compute. reflexivity.
    + vm_compute. reflexivity.
    + split; [exact Hr | exact Hgone].
Defined.

(** C8, as stated, fails: the directory need not be fresh. On a project
    where an earlier run left the sort directory behind with a file in it,
    [os.makedirs(..., exist_ok=True)] keeps both, and the sort starts on a
    directory that is not empty. *)
Lemma psl_bundle_sort_temp_dir_not_fresh :
  ~ (forall (env : Env) (c : Constants) cat crd psa w r w' cmd po seen,
       chain_run_step.psl_bundle_sort env c cat crd psa w = (r, w') ->
       In (EvSpawn cmd po seen) (events_since w w') ->
       let tmp := Py.path_join crd [PSL_SORT_TEMP_DIRNAME c] in
       empty_dir seen tmp
       /\ (forall out g,
             run env cmd po seen = Some (out, g) ->
             is_dir g tmp = true ->
             path_exists (fs w') tmp = false)).
Proof.
  intros Hclaim.
  edestruct (Hclaim (Samples.env_exit "Linux" 0 "") Samples.constants
               "/p/cat" "/p/run" "pslSortAcc" Samples.stale_world)
    as [[_ Hempty] _].
  - apply surjective_pairing.
  - vm_compute. left. reflexivity.
  - specialize (Hempty "/p/run/sort_temp/left_over" eq_refl).
    vm_compute in Hempty. discriminate.
Qed.

(** ** Failure of the external sort *)

(** The sibling path: [sort_psl_file] of bundle_psl_step.py runs the
    sort with [check=True], so any non-zero exit status is raised. *)
Lemma sort_psl_file_raises_on_failure env input tmp output psa f t out g :
  let line := bundle_psl_step.sort_command input tmp output psa in
  run env (Shell line None) None f = Some (out, g) ->
  returncode out <> 0%Z ->
  (bundle_psl_step.sort_psl_file env input tmp output psa (MkWorld f t)).1
  = Raise (CalledProcessError (returncode out) (Shell line None)).
Proof.
  intros line Hchild Hrc.
  unfold bundle_psl_step.sort_psl_file, subprocess_run_shell_check, spawn,
    bind, ret, raise, get_fs, put_fs, emit.
  cbn beta iota zeta delta [fs trace]. fold line. rewrite Hchild.
  cbn beta iota zeta delta [fs trace].
  destruct (Z.eqb_spec (returncode out) 0) as [E|_]; [contradiction | reflexivity].
Qed.

(** C4 at the failing input. The external sort exits with status 1, and
    [psl_bundle] neither raises nor stops: it goes on to the bundle phase
    and returns normally. On the same machine [sort_psl_file] raises. *)
Theorem psl_bundle_continues_after_failed_sort :
  let env := Samples.env_exit "Linux" 1 "sort failed" in
  let sort_argv := ["pslSortAcc"; "nohead"; "/p/run/sorted_psl"; "/p/run/sort_temp";
                    "/p/cat/a.psl.gz /p/cat/b.psl.gz"] in
  let out := chain_run_step.psl_bundle env Samples.constants (fun _ _ _ _ => ret tt)
               "/p/cat" "/p/run" "pslSortAcc" (Samples.params (Py.PyBool true))
               Samples.cat_world in
  out.1 = Ok tt
  /\ (exists seen,
        events_since Samples.cat_world out.2
        = [EvSpawn (Argv sort_argv) None seen;
           EvCall "bundle_chrom_split_psl_files" ["/p/run/sorted_psl"; "/p/run/split_psl"]]
        /\ option_map (fun x => returncode x.1) (run env (Argv sort_argv) None seen)
           = Some 1%Z)
  /\ (bundle_psl_step.sort_psl_file env "/p/cat/concatenated.psl.gz" "/p/cat/sort_temp"
        "/p/cat/sorted_psls" "pslSortAcc" Samples.cat_world).1
     = Raise (CalledProcessError 1
                (Shell ("pslSortAcc nohead /p/cat/sorted_psls /p/cat/sort_temp "
                        +:+ "/p/cat/concatenated.psl.gz") None)).
Proof.
  cbv zeta. split; [vm_compute; reflexivity|]. split.
  - eexists. split; vm_compute; reflexivity.
  - vm_compute. reflexivity.
Qed.

(** ** Directory listings *)

Lemma entry_name_spec d k n :
  entry_name d k = Some n ->
  k = dir_prefix d +:+ n /\ n <> "" /\ Py.contains n "/" = false.
Proof.
  unfold entry_name. destruct (strip_prefix (dir_prefix d) k) as [m|] eqn:E; [|discriminate].
  destruct (String.eqb_spec m "") as [->|Hne]; [discriminate|]. simpl.
  destruct (Py.contains m "/") eqn:Hc; [discriminate|].
  intros [= <-]. split; [by apply strip_prefix_app | by split].
Qed.

Lemma NoDup_omap_inj {A B} (g : A -> option B) (l : list A) :
  (forall x y b, g x = Some b -> g y = Some b -> x = y) ->
  NoDup l -> NoDup (omap g l).
Proof.
  intros Hinj. induction 1 as [|x l Hx Hl IH]; simpl; [constructor|].
  destruct (g x) as [b|] eqn:E; [|exact IH].
  constructor; [|exact IH].
  rewrite list_elem_of_omap. intros (y & Hy & Eb).
  by rewrite (Hinj x y b E Eb) in Hx.
Qed.

Lemma entries_NoDup (f : gmap string node) d : NoDup (entries f d).
Proof.
  unfold entries. apply NoDup_omap_inj.
  - intros x y b Hx Hy.
    apply entry_name_spec in Hx as [-> _]. by apply entry_name_spec in Hy as [-> _].
  - apply (NoDup_fst_map_to_list f).
Qed.

Lemma entries_spec (f : gmap string node) d n :
  n ∈ entries f d ->
  is_Some (f !! (dir_prefix d +:+ n)) /\ n <> "" /\ Py.contains n "/" = false.
Proof.
  unfold entries. rewrite list_elem_of_omap. intros (k & Hk & E).
  apply entry_name_spec in E as (-> & Hne & Hc). split; [|by split].
  apply list_elem_of_fmap in Hk as ([k' v] & -> & Hkv).
  apply elem_of_map_to_list in Hkv. simpl. by exists v.
Qed.

Lemma strip_prefix_complete (pre r : string) : strip_prefix pre (pre +:+ r) = Some r.
Proof.
  induction pre as [|a pre IH]; [reflexivity|].
  change (String a pre +:+ r) with (String a (pre +:+ r)).
  cbn [strip_prefix]. by rewrite Ascii.eqb_refl.
Qed.

Lemma entry_name_complete d n :
  n <> "" -> Py.contains n "/" = false -> entry_name d (dir_prefix d +:+ n) = Some n.
Proof.
  intros Hne Hc. unfold entry_name. rewrite strip_prefix_complete, Hc.
  by destruct (String.eqb_spec n "").
Qed.

(** The entries of [d] are the names [n] (non-empty, without a slash)
    for which the path of [n] below [d] is a node. *)
Lemma entries_iff (f : gmap string node) d n :
  n ∈ entries f d
  <-> n <> "" /\ Py.contains n "/" = false /\ is_Some (f !! (dir_prefix d +:+ n)).
Proof.
  split.
  - intros Hn. apply entries_spec in Hn as (? & ? & ?). by repeat split.
  - intros (Hne & Hc & [v Hv]). unfold entries. apply list_elem_of_omap.
    exists (dir_prefix d +:+ n). split; [|by apply entry_name_complete].
    apply list_elem_of_fmap. exists (dir_prefix d +:+ n, v). split; [reflexivity|].
    by apply elem_of_map_to_list.
Qed.

Lemma fold_left_append_map {A B} (g : A -> B) (l : list A) (acc : list B) :
  fold_left (fun jobs x => jobs ++ [g x]) l acc = acc ++ map g l.
Proof.
  revert acc. induction l as [|x l IH]; intros acc; simpl.
  - by rewrite app_nil_r.
  - rewrite IH. by rewrite <- app_assoc.
Qed.

(** ** The job list of the chain-run step *)

Section Joblist.
Variable c : Constants.

Lemma chain_cmd_line crd params ex n :
  n <> "" -> Py.contains n "/" = false ->
  Py.str_join " " (chain_run_step.chain_cmd params ex
                     (chain_run_step.in_path_of c crd n)
                     (chain_run_step.out_path_of c crd n))
  = chain_run_step.job_line c crd params ex n.
Proof.
  intros Hne Hc.
  unfold chain_run_step.in_path_of, chain_run_step.out_path_of.
  cbn [Py.path_join fold_left].
  rewrite (join1_relative _ n) by by apply contains_no_slash_start.
  rewrite (join1_relative _ (n +:+ ".chain")).
  2:{ rewrite startswith_app_nonempty by done. by apply contains_no_slash_start. }
  unfold Py.str_join, chain_run_step.chain_cmd, chain_run_step.job_line.
  cbn [String.concat Py.path_join fold_left].
  rewrite !str_app_assoc. reflexivity.
Qed.

Lemma out_path_inj crd n1 n2 :
  n1 <> "" -> Py.contains n1 "/" = false ->
  n2 <> "" -> Py.contains n2 "/" = false ->
  chain_run_step.out_path_of c crd n1 = chain_run_step.out_path_of c crd n2 ->
  n1 = n2.
Proof.
  intros H1 C1 H2 C2. unfold chain_run_step.out_path_of.
  cbn [Py.path_join fold_left].
  rewrite (join1_relative _ (n1 +:+ ".chain")), (join1_relative _ (n2 +:+ ".chain"));
    try (rewrite startswith_app_nonempty by done; by apply contains_no_slash_start).
  intros E. apply String.app_inj in E. by apply str_app_inv_tail in E.
Qed.

(** C5. When the split directory exists (and the output directory can
    be made), [make_chains_joblist] returns exactly one command line per
    bundle file of the split directory, and the world it leaves is the
    world of the call with the output directory made. Every bundle file
    present at the call gets a command; every command is for such a
    file (or for the output directory, should that be made as an entry
    of the split directory). Each line runs the chaining tool on that
    bundle's path with the minimum score, the linear-gap setting and
    both sequence directories, pipes it into the repeat filter, and
    names an output chain file; the output files of different bundles
    are different. *)
Theorem make_chains_joblist_one_command_per_bundle
    crd params ex (w : World) :
  let split_dir := Py.path_join crd [SPLIT_PSL_DIRNAME c] in
  let out_dir := Py.path_join crd [CHAIN_RUN_OUT_DIRNAME c] in
  let bundle_at (f : gmap string node) (n : string) : Prop :=
    n <> "" /\ Py.contains n "/" = false /\ is_Some (f !! (dir_prefix split_dir +:+ n)) in
  is_file (fs w) out_dir = false ->
  is_dir (fs w) split_dir = true ->
  exists names,
    chain_run_step.make_chains_joblist c crd params ex w
    = (Ok (map (chain_run_step.job_line c crd params ex) names),
       MkWorld (if path_exists (fs w) out_dir then fs w else <[out_dir := Dir]> (fs w))
         (trace w))
    /\ length (map (chain_run_step.job_line c crd params ex) names) = length names
    /\ NoDup names
    /\ (forall n, bundle_at (fs w) n -> n ∈ names)
    /\ (forall n, n ∈ names ->
          bundle_at (fs w) n
          \/ (dir_prefix split_dir +:+ n = out_dir /\ fs w !! out_dir = None))
    /\ NoDup (map (chain_run_step.out_path_of c crd) names)
    /\ (forall n, n ∈ names ->
          chain_run_step.in_path_of c crd n = dir_prefix split_dir +:+ n
          /\ chain_run_step.out_path_of c crd n
             = dir_prefix out_dir +:+ n +:+ ".chain").
Proof.
  destruct w as [f t]. cbn [fs trace Py.path_join fold_left]. intros Hout Hsplit.
  set (split_dir := Py.join1 crd (SPLIT_PSL_DIRNAME c)) in *.
  set (out_dir := Py.join1 crd (CHAIN_RUN_OUT_DIRNAME c)) in *.
  set (f' := if path_exists f out_dir then f else <[out_dir := Dir]> f).
  assert (Hf' : f' = match f !! out_dir with
                     | None => <[out_dir := Dir]> f
                     | Some _ => f
                     end).
  { subst f'. unfold path_exists. by destruct (f !! out_dir). }
  assert (Hsplit' : is_dir f' split_dir = true).
  { rewrite Hf'. destruct (f !! out_dir); [done | by apply is_dir_insert_mono]. }
  exists (entries f' split_dir).
  assert (Hnames : forall n, n ∈ entries f' split_dir ->
            n <> "" /\ Py.contains n "/" = false).
  { intros n Hn. by apply entries_spec in Hn as (_ & ? & ?). }
  split.
  { unfold chain_run_step.make_chains_joblist, makedirs_exist_ok, listdir,
      bind, get_fs, put_fs, ret, raise.
    cbn beta iota zeta delta [fs trace Py.path_join fold_left].
    fold split_dir out_dir. unfold is_file in Hout. revert Hsplit' Hnames. rewrite Hf'.
    destruct (f !! out_dir) as [[?|]|] eqn:E;
      try discriminate; intros Hsplit' Hnames;
      cbn beta iota zeta delta [fs trace]; rewrite Hsplit';
      cbn beta iota zeta delta [fs trace];
      rewrite fold_left_append_map; cbn [app];
      (f_equal; f_equal; apply map_ext_in; intros n Hn;
       apply list_elem_of_In, Hnames in Hn as [? ?];
       by apply chain_cmd_line). }
  split; [apply length_map|].
  split; [apply entries_NoDup|].
  split.
  { intros n (Hne & Hc & [v Hv]). apply entries_iff. repeat split; [done..|].
    rewrite Hf'. destruct (f !! out_dir) eqn:E; [by exists v|].
    exists v. by apply insert_keeps. }
  split.
  { intros n Hn. apply entries_iff in Hn as (Hne & Hc & [v Hv]).
    rewrite Hf' in Hv. destruct (f !! out_dir) eqn:E.
    - left. repeat split; [done..|]. by exists v.
    - destruct (decide (out_dir = dir_prefix split_dir +:+ n)) as [Heq|Hneq].
      + right. by split.
      + left. repeat split; [done..|]. exists v. by rewrite lookup_insert_ne in Hv. }
  split.
  { apply NoDup_fmap_2_strong; [|apply entries_NoDup].
    intros x y Hx Hy. apply Hnames in Hx as [? ?]. apply Hnames in Hy as [? ?].
    by apply out_path_inj. }
  intros n Hn. destruct (Hnames n Hn) as [? ?].
  unfold chain_run_step.in_path_of, chain_run_step.out_path_of.
  cbn [Py.path_join fold_left]. fold split_dir out_dir. split.
  - apply join1_relative. by apply contains_no_slash_start.
  - rewrite join1_relative; [reflexivity|].
    rewrite startswith_app_nonempty by done. by apply contains_no_slash_start.
Qed.
End Joblist.

Example make_chains_joblist_ex :
  (chain_run_step.make_chains_joblist Samples.constants "/p/run"
     (Samples.params (Py.PyBool true)) Samples.executables Samples.bundles_world).1
  = Ok ["/usr/bin/axtChain -psl -verbose=0 -minScore=1000 -linearGap=loose "
        +:+ "/p/run/split_psl/bundle.1.psl /p/target.2bit /p/query.2bit stdout | "
        +:+ "/usr/bin/chainAntiRepeat /p/target.2bit /p/query.2bit stdin "
        +:+ "/p/run/chain_output/bundle.1.psl.chain";
        "/usr/bin/axtChain -psl -verbose=0 -minScore=1000 -linearGap=loose "
        +:+ "/p/run/split_psl/bundle.2.psl /p/target.2bit /p/query.2bit stdout | "
        +:+ "/usr/bin/chainAntiRepeat /p/target.2bit /p/query.2bit stdin "
        +:+ "/p/run/chain_output/bundle.2.psl.chain"].
Proof. vm_compute. reflexivity. Qed.

(** C5 on the sample project with two bundles: two commands, one for
    each bundle, and the output directory is made. *)
Lemma make_chains_joblist_one_command_per_bundle_witness :
  exists names,
    chain_run_step.make_chains_joblist Samples.constants "/p/run"
      (Samples.params (Py.PyBool true)) Samples.executables Samples.bundles_world
    = (Ok (map (chain_run_step.job_line Samples.constants "/p/run"
                  (Samples.params (Py.PyBool true)) Samples.executables) names),
       MkWorld (<["/p/run/chain_output" := Dir]> (fs Samples.bundles_world)) [])
    /\ length names = 2
    /\ NoDup names
    /\ "bundle.1.psl" ∈ names
    /\ "bundle.2.psl" ∈ names
    /\ NoDup (map (chain_run_step.out_path_of Samples.constants "/p/run") names).
Proof.
  destruct (make_chains_joblist_one_command_per_bundle Samples.constants "/p/run"
              (Samples.params (Py.PyBool true)) Samples.executables Samples.bundles_world)
    as (names & Hrun & Hlen & Hnd & Hin & _ & Hout & _).
  - vm_compute. reflexivity.
  - vm_compute. reflexivity.
  - exists names. split; [exact Hrun|]. split.
    + pose proof (f_equal (fun r : result (list string) * World =>
                             match r.1 with Ok l => length l | Raise _ => 0 end)
                          Hrun) as H2.
      cbn beta iota delta [fst] in H2. rewrite Hlen in H2. rewrite <- H2.
      vm_compute. reflexivity.
    + split; [exact Hnd|].
      repeat split; try exact Hout;
        apply Hin; (split; [discriminate|]); (split; [reflexivity|]);
        vm_compute; eexists; reflexivity.
Defined.

(** ** The chain-clean step *)

Section Clean.
Variable env : Env.

Lemma select_input_run params pp f t :
  clean_chain_step.select_input params pp (MkWorld f t)
  = if Py.is_True (fill_chain params)
    then (Ok (filled_chain pp),
          MkWorld f (t ++ [EvLog ("Chains were filled: using " +:+ filled_chain pp
                                  +:+ " as input")]))
    else (Ok (merged_chain pp),
          MkWorld f (t ++ [EvLog ("Fill chains step was skipped: using "
                                  +:+ merged_chain pp +:+ " as input")])).
Proof. unfold clean_chain_step.select_input. by destruct (Py.is_True _). Qed.

(** A run in which the cleaner was started and exited with a non-zero
    status, step by step. *)
Lemma do_chains_clean_failed_cleaner_run params pp ex f t content path out g :
  let input := if Py.is_True (fill_chain params)
               then filled_chain pp else merged_chain pp in
  let output := Py.removesuffix input ".gz" in
  let cmd := clean_chain_step.chain_cleaner_cmd params pp ex output in
  let f1 := <[before_cleaning_chain pp := File content]> (delete input f) in
  let f2 := <[chain_cleaner_log pp := File ""]> f1 in
  let g' := <[chain_cleaner_log pp := File (stdout out)]> g in
  let tc := t ++ clean_chain_step.events_to_cleaner params pp ex path f2 in
  let tz := tc ++ [EvLog clean_chain_step.macos_message;
                   EvLog ("Chain clean results saved to: " +:+ output);
                   EvSpawn (Argv ["gzip"; output]) None g'] in
  f !! input = Some (File content) ->
  environ_PATH env = Some path ->
  f1 !! chain_cleaner_log pp <> Some Dir ->
  run env (Argv cmd) (Some (chain_clean_micro_env pp +:+ ":" +:+ path)) f2
    = Some (out, g) ->
  returncode out <> 0%Z ->
  clean_chain_step.do_chains_clean env params pp ex (MkWorld f t)
  = if String.eqb (platform_system env) "Darwin"
    then match run env (Argv ["gzip"; output]) None g' with
         | Some (gz, h) =>
             if (returncode gz =? 0)%Z
             then (Ok tt, MkWorld h (tz ++ [EvLog "Chain clean DONE"]))
             else (Raise (PipelineSubprocessError
                            "gzip command at clean chain step failed"),
                   MkWorld h tz)
         | None => (Raise (OSError "cannot start the program"), MkWorld g' tz)
         end
    else (Raise (PipelineSubprocessError
                   (clean_chain_step.died_message (stderr out))),
          MkWorld g' tc).
Proof.
  intros input output cmd f1 f2 g' tc tz Hin Hpath Hlog Hchild Hrc.
  assert (Hsel : clean_chain_step.select_input params pp (MkWorld f t)
                 = (Ok input, MkWorld f (t ++ [hd EvPrintHelp
                                                 (clean_chain_step.events_to_cleaner params pp ex path f2)]))).
  { rewrite select_input_run. subst input. cbn [clean_chain_step.events_to_cleaner hd].
    by destruct (Py.is_True _). }
  subst tz tc. unfold clean_chain_step.events_to_cleaner. cbn [hd] in Hsel. fold input output cmd.
  unfold clean_chain_step.do_chains_clean.
  unfold bind at 1. rewrite Hsel. fold output cmd.
  unfold isfile, move, to_log, open_write, handle_write,
    subprocess_check_call, try_except, spawn, bind, ret, raise, get_fs, put_fs,
    emit.
  cbn beta iota zeta delta [fs trace]. unfold is_file.
  repeat (cbn beta iota zeta delta [fs trace negb];
          first [ rewrite Hin | rewrite Hpath ]).
  cbn beta iota zeta delta [fs trace negb]. fold f1.
  destruct (f1 !! chain_cleaner_log pp) as [[?|]|]; [| by destruct Hlog |].
  all: cbn beta iota zeta delta [fs trace negb]; fold f2; rewrite Hchild.
  all: cbn beta iota zeta delta [fs trace negb]; fold g'.
  all: destruct (Z.eqb_spec (returncode out) 0) as [?|_]; [contradiction|].
  all: cbn beta iota zeta delta [fs trace negb].
  all: destruct (platform_system env =? "Darwin")%string;
    [|by rewrite <- !app_assoc].
  all: cbn beta iota zeta delta [fs trace negb].
  all: destruct (run env (Argv ["gzip"; output]) None g') as [[gz h]|];
    [|by rewrite <- !app_assoc].
  all: cbn beta iota zeta delta [fs trace negb].
  all: destruct (returncode gz =? 0)%Z; cbn beta iota zeta delta [fs trace negb].
  all: by rewrite <- !app_assoc.
Qed.

(** C3. The step has reached the cleaner and the cleaner exits with a
    non-zero status. Off macOS the step raises the fatal error whose
    message ends with the captured standard error. On macOS it logs the
    tolerated anomaly, goes on to the compression, and its outcome is
    that of the compression alone. *)
Theorem do_chains_clean_nonzero_exit params pp ex f t content path out g :
  let input := if Py.is_True (fill_chain params)
               then filled_chain pp else merged_chain pp in
  let output := Py.removesuffix input ".gz" in
  let cmd := clean_chain_step.chain_cleaner_cmd params pp ex output in
  let f1 := <[before_cleaning_chain pp := File content]> (delete input f) in
  let f2 := <[chain_cleaner_log pp := File ""]> f1 in
  let g' := <[chain_cleaner_log pp := File (stdout out)]> g in
  let res := clean_chain_step.do_chains_clean env params pp ex (MkWorld f t) in
  f !! input = Some (File content) ->
  environ_PATH env = Some path ->
  f1 !! chain_cleaner_log pp <> Some Dir ->
  run env (Argv cmd) (Some (chain_clean_micro_env pp +:+ ":" +:+ path)) f2
    = Some (out, g) ->
  returncode out <> 0%Z ->
  (platform_system env <> "Darwin" ->
     res.1 = Raise (PipelineSubprocessError
                      (clean_chain_step.died_message (stderr out)))
     /\ Py.contains (clean_chain_step.died_message (stderr out)) (stderr out) = true)
  /\ (platform_system env = "Darwin" ->
        (exists before after,
           events_since (MkWorld f t) res.2
           = before
             ++ [EvLog clean_chain_step.macos_message;
                 EvLog ("Chain clean results saved to: " +:+ output);
                 EvSpawn (Argv ["gzip"; output]) None g']
             ++ after)
        /\ match run env (Argv ["gzip"; output]) None g' with
           | Some (gz, _) =>
               if (returncode gz =? 0)%Z then res.1 = Ok tt
               else res.1 = Raise (PipelineSubprocessError
                                     "gzip command at clean chain step failed")
           | None => exists m, res.1 = Raise (OSError m)
           end).
Proof.
  intros input output cmd f1 f2 g' res Hin Hpath Hlog Hchild Hrc.
  pose proof (do_chains_clean_failed_cleaner_run params pp ex f t content path out g
                Hin Hpath Hlog Hchild Hrc) as Hrun.
  cbv zeta in Hrun. fold input output cmd f1 f2 g' in Hrun. fold res in Hrun.
  clearbody res. subst res. split.
  - intros Hplat. apply String.eqb_neq in Hplat. rewrite Hplat. cbn [fst].
    split; [reflexivity|].
    unfold clean_chain_step.died_message.
    rewrite <- (str_app_nil_r (stderr out)) at 1. apply contains_app.
  - intros Hplat. apply String.eqb_eq in Hplat. rewrite Hplat.
    destruct (run env (Argv ["gzip"; output]) None g') as [[gz h]|];
      [destruct (returncode gz =? 0)%Z|]; cbn [fst snd trace].
    all: split; [|eauto].
    all: rewrite <- ?app_assoc, events_since_app.
    1: exists (clean_chain_step.events_to_cleaner params pp ex path f2),
              [EvLog "Chain clean DONE"].
    2,3: exists (clean_chain_step.events_to_cleaner params pp ex path f2), [].
    all: by rewrite <- ?app_assoc.
Qed.

End Clean.

(** ** The executable resolver *)

Section ResolverFacts.
Variable env : Env.
Variable f : gmap string node.

Lemma find_script_acc root nf n :
  step_executables.find_script env f root nf n
  = ((step_executables.find_script env f root [] n).1,
     nf ++ (step_executables.find_script env f root [] n).2).
Proof.
  unfold step_executables.find_script.
  destruct (negb _); cbn [fst snd app]; by rewrite ?app_nil_r.
Qed.

Lemma find_binary_acc hl nf n :
  step_executables.find_binary env f hl nf n
  = ((step_executables.find_binary env f hl [] n).1,
     nf ++ (step_executables.find_binary env f hl [] n).2).
Proof.
  unfold step_executables.find_binary.
  destruct (which env n); [|destruct (negb _)]; cbn [fst snd app];
    by rewrite ?app_nil_r.
Qed.

Lemma locate_chain_net_acc ce nf n :
  step_executables.locate_chain_net env f ce nf n
  = ((step_executables.locate_chain_net env f ce [] n).1,
     nf ++ (step_executables.locate_chain_net env f ce [] n).2).
Proof.
  unfold step_executables.locate_chain_net.
  destruct (step_executables.on_search_path env n);
    [|destruct (is_file _ _)]; cbn [fst snd app]; by rewrite ?app_nil_r.
Qed.

(** The record [resolve] builds, field by field. *)
Lemma resolve_fields c root :
  let hl := Py.path_join root [KENT_BINARIES_DIRNAME c] in
  let ce := Py.path_join root [CHAIN_CLEAN_MICRO_ENV c] in
  let script n := step_executables.find_script env f root [] n in
  let binary n := step_executables.find_binary env f hl [] n in
  let net n := step_executables.locate_chain_net env f ce [] n in
  step_executables.resolve env f c root
  = step_executables.MkStepExecutables root hl ce
      ((script (RUN_LASTZ c)).2 ++ (script (REPEAT_FILLER c)).2
       ++ (binary (FA_TO_TWO_BIT c)).2 ++ (binary (TWO_BIT_TO_FA c)).2
       ++ (binary (PSL_SORT_ACC c)).2 ++ (binary (AXT_CHAIN c)).2
       ++ (binary (CHAIN_ANTI_REPEAT c)).2 ++ (binary (CHAIN_MERGE_SORT c)).2
       ++ (binary (CHAIN_CLEANER c)).2 ++ (binary (CHAIN_SORT c)).2
       ++ (binary (CHAIN_SCORE c)).2 ++ (binary (LASTZ c)).2
       ++ (net (CHAIN_NET c)).2)
      (script (RUN_LASTZ c)).1 (script (REPEAT_FILLER c)).1
      (binary (FA_TO_TWO_BIT c)).1 (binary (TWO_BIT_TO_FA c)).1
      (binary (PSL_SORT_ACC c)).1 (binary (AXT_CHAIN c)).1
      (binary (CHAIN_ANTI_REPEAT c)).1 (binary (CHAIN_MERGE_SORT c)).1
      (binary (CHAIN_CLEANER c)).1 (binary (CHAIN_SORT c)).1
      (binary (CHAIN_SCORE c)).1 (binary (LASTZ c)).1
      (net (CHAIN_NET c)).1.
Proof.
  cbv zeta. unfold step_executables.resolve.
  repeat match goal with
  | |- context [match step_executables.find_script ?e ?g ?r ?nf ?n with _ => _ end] =>
      rewrite (find_script_acc r nf n);
      destruct (step_executables.find_script e g r [] n) as [? ?]; cbn [fst snd]
  | |- context [match step_executables.find_binary ?e ?g ?r ?nf ?n with _ => _ end] =>
      rewrite (find_binary_acc r nf n);
      destruct (step_executables.find_binary e g r [] n) as [? ?]; cbn [fst snd]
  | |- context [match step_executables.locate_chain_net ?e ?g ?r ?nf ?n with _ => _ end] =>
      rewrite (locate_chain_net_acc r nf n);
      destruct (step_executables.locate_chain_net e g r [] n) as [? ?]; cbn [fst snd]
  end.
  cbn [app]. by rewrite <- !app_assoc.
Qed.
End ResolverFacts.

Section ResolverClaims.
Variable env : Env.
Variable f : gmap string node.
Variable c : Constants.
Variable root : string.

Lemma script_value n :
  Py.isabs (cwd env) = true ->
  match (step_executables.find_script env f root [] n).1 with
  | Some p => Py.isabs p = true
  | None => (step_executables.find_script env f root [] n).2 = [n]
  end.
Proof.
  intros Hcwd. unfold step_executables.find_script.
  destruct (negb _); cbn [fst snd app]; [reflexivity | by apply isabs_abspath].
Qed.

Lemma binary_value hl n :
  (step_executables.find_binary env f hl [] n).1
  = match which env n with
    | Some p => p
    | None => Py.path_join hl [n]
    end.
Proof.
  unfold step_executables.find_binary.
  destruct (which env n) as [p|]; [reflexivity|]. by destruct (negb _).
Qed.

Lemma binary_value_absolute hl n :
  Py.isabs hl = true ->
  (forall n p, which env n = Some p -> Py.isabs p = true) ->
  Py.isabs (step_executables.find_binary env f hl [] n).1 = true.
Proof.
  intros Hhl Hwhich. rewrite binary_value.
  destruct (which env n) as [p|] eqn:E; [by apply (Hwhich n)|].
  by apply isabs_path_join.
Qed.

Lemma chain_net_value ce n :
  (step_executables.locate_chain_net env f ce [] n).1
  = (if step_executables.on_search_path env n || is_file f (Py.path_join ce [n])
     then Some true else None)
  /\ ((step_executables.locate_chain_net env f ce [] n).1 = None ->
      (step_executables.locate_chain_net env f ce [] n).2 = [n]).
Proof.
  unfold step_executables.locate_chain_net.
  destruct (step_executables.on_search_path env n);
    [|destruct (is_file _ _)]; cbn [fst snd orb app]; split; try reflexivity;
    intros H; discriminate H.
Qed.

End ResolverClaims.

(** C6. On a complete installation, where [shutil.which] finds every
    tool in /usr/bin, the constructor returns with nothing missing and
    the binaries are mapped to the paths found, but chainNet is mapped to
    the flag [True]: the record holds no path for it, although the
    module is documented as the class that holds the paths to all
    necessary executables. *)
Theorem step_executables_chain_net_holds_a_flag :
  exists self,
    step_executables.init Samples.env_installed Samples.constants "/r"
      Samples.installed_world
    = (Ok self, MkWorld (fs Samples.installed_world)
                  [EvLog "All necessary executables found."])
    /\ step_executables.not_found self = []
    /\ In ("lastz", Py.PyStr "/usr/bin/lastz")
         (step_executables.tool_values Samples.constants self)
    /\ In ("chainNet", Py.PyBool true)
         (step_executables.tool_values Samples.constants self)
    /\ (forall p, ~ In ("chainNet", Py.PyStr p)
                    (step_executables.tool_values Samples.constants self)).
Proof.
  eexists. split; [vm_compute; reflexivity|].
  split; [vm_compute; reflexivity|].
  split; [vm_compute; do 11 right; left; reflexivity|].
  split; [vm_compute; do 12 right; left; reflexivity|].
  intros p H. vm_compute in H.
  repeat (destruct H as [H|H]; [discriminate H|]). exact H.
Qed.

(** So a tool that is resolved need not be mapped to a path: when
    [shutil.which] finds chainNet, the record holds [True] for it. *)
Lemma resolver_chain_net_is_not_a_path :
  ~ (forall (env : Env) (f : gmap string node) (c : Constants) (root name : string)
            (v : Py.pyval),
       In (name, v) (step_executables.tool_values c
                       (step_executables.resolve env f c root)) ->
       ~ In name (step_executables.not_found (step_executables.resolve env f c root)) ->
       exists p, v = Py.PyStr p /\ Py.isabs p = true).
Proof.
  intros Hclaim.
  destruct (Hclaim (Samples.env_with "chainNet" "/usr/bin/chainNet") ∅
              Samples.constants "/r" "chainNet" (Py.PyBool true))
    as (p & Hp & _).
  - vm_compute. do 12 right. left. reflexivity.
  - vm_compute. intros H.
    repeat (destruct H as [H|H]; [discriminate H|]). exact H.
  - discriminate Hp.
Qed.

(** A second way in which a resolved tool is not mapped to an absolute
    path: a search path with a relative entry. *)
Example resolver_binary_may_be_relative :
  step_executables.lastz
    (step_executables.resolve (Samples.env_with "lastz" "bin/lastz") ∅
       Samples.constants "/r")
  = "bin/lastz".
Proof. vm_compute. reflexivity. Qed.

(** ** Missing executables *)

(** X24. The resolver of modules/step_executables.py: when a tool is
    missing, the constructor raises, the world is untouched, and the
    message lists every missing tool. *)
Lemma step_executables_init_lists_every_missing_tool env c root f t :
  let self := step_executables.resolve env f c root in
  step_executables.not_found self <> [] ->
  step_executables.init env c root (MkWorld f t)
  = (Raise (ExecutableNotFoundError (step_executables.err_msg self)), MkWorld f t)
  /\ (forall x, In x (step_executables.not_found self) ->
        Py.contains (step_executables.err_msg self) ("* " +:+ x) = true).
Proof.
  intros self Hnf. split.
  - unfold step_executables.init, step_executables.check_completeness,
      bind, get_fs, raise. cbn [fs]. fold self.
    destruct (step_executables.not_found self); [congruence | reflexivity].
  - intros x Hx. unfold step_executables.err_msg.
    destruct (str_join_mentions nl (fun x => "* " +:+ x) _ x Hx) as (a & b & ->).
    do 3 apply contains_app_r. apply contains_app_l, contains_app.
Qed.

(** When the construction of the executables record fails, the pipeline
    ends with that error, in the world the constructor left: the steps
    are not executed. *)
Lemma run_pipeline_stops_without_executables
    (env : Env) (SCRIPT_LOCATION version : string)
    {SM P RT : Type}
    (odm : make_chains.Namespace -> M string)
    (smn : string -> make_chains.Namespace -> M SM)
    (ppn : make_chains.Namespace -> M P)
    (setup_logger : string -> M unit)
    (dump_to_json : P -> string -> M unit)
    (sgs : string -> string -> string -> make_chains.StepExecutables -> M RT)
    (execute_steps : SM -> string -> P -> make_chains.StepExecutables -> M unit)
    (args : make_chains.Namespace) (w w1 w2 : World) ready e :
  make_chains.run_pipeline_setup env SCRIPT_LOCATION version
    odm smn ppn setup_logger dump_to_json args w = (Ok ready, w1) ->
  make_chains.init env SCRIPT_LOCATION w1 = (Raise e, w2) ->
  make_chains.run_pipeline env SCRIPT_LOCATION version
    odm smn ppn setup_logger dump_to_json sgs execute_steps args w = (Raise e, w2).
Proof.
  intros Hsetup Hinit. unfold make_chains.run_pipeline, bind at 1.
  rewrite Hsetup. destruct ready as [[project_dir step_manager] parameters].
  unfold bind at 1. by rewrite Hinit.
Qed.

(** C2 at the failing input. Nothing is installed: all six tools the
    entry point requires are missing. Its own [StepExecutables()] raises
    at the first one, and the message names that one only (it does not
    mention run_lastz.py, for one). On the same machine the resolver of
    modules/step_executables.py names every tool it misses. *)
Theorem entry_point_names_first_missing_tool_only :
  let env := Samples.env_exit "Linux" 0 "" in
  make_chains.missing_tools env "/r" ∅
  = ["partitionSequence.pl"; "run_lastz.py"; "split_chain_into_random_parts.pl";
     "bundle_chrom_split_psl_files.perl"; "faToTwoBit"; "twoBitToFa"]
  /\ make_chains.init env "/r" Samples.empty_world
     = (Raise (ValueError "Error! Cannot locate script: partitionSequence.pl"),
        Samples.empty_world)
  /\ Py.contains "Error! Cannot locate script: partitionSequence.pl" "run_lastz.py"
     = false
  /\ (exists msg,
        (step_executables.init env Samples.constants "/r" Samples.empty_world).1
        = Raise (ExecutableNotFoundError msg)
        /\ step_executables.not_found
             (step_executables.resolve env ∅ Samples.constants "/r")
           = ["run_lastz.py"; "chain_gap_filler.py"; "faToTwoBit"; "twoBitToFa";
              "pslSortAcc"; "axtChain"; "chainAntiRepeat"; "chainMergeSort";
              "chainCleaner"; "chainSort"; "chainScore"; "lastz"; "chainNet"]
        /\ forallb (Py.contains msg)
             (step_executables.not_found
                (step_executables.resolve env ∅ Samples.constants "/r"))
           = true).
Proof.
  cbv zeta. repeat split; try (vm_compute; reflexivity).
  eexists. repeat split; vm_compute; reflexivity.
Qed.

(** ** The input of the chain-clean step *)

(** C3 on the sample project: the cleaner exits with status 1 and the
    compression succeeds. On Linux the step raises with the captured
    standard error; on macOS it completes. *)
Lemma do_chains_clean_nonzero_exit_witness :
  (clean_chain_step.do_chains_clean (Samples.env_cleaner_fails "Linux" "boom")
     (Samples.params (Py.PyBool true)) Samples.paths Samples.executables
     Samples.chains_world).1
  = Raise (PipelineSubprocessError
             "chain cleaner process died with the following error message: boom")
  /\ (clean_chain_step.do_chains_clean (Samples.env_cleaner_fails "Darwin" "boom")
        (Samples.params (Py.PyBool true)) Samples.paths Samples.executables
        Samples.chains_world).1
     = Ok tt.
Proof.
  split.
  - refine (proj1 (proj1 (do_chains_clean_nonzero_exit
                     (Samples.env_cleaner_fails "Linux" "boom")
                     (Samples.params (Py.PyBool true)) Samples.paths Samples.executables
                     (fs Samples.chains_world) [] "filled" "/usr/bin"
                     (Completed 1 "cleaner output" "boom") _ _ _ _ _ _) _)).
    + vm_compute. reflexivity.
    + reflexivity.
    + vm_compute. discriminate.
    + vm_compute. reflexivity.
    + discriminate.
    + discriminate.
  - refine (proj2 (proj2 (do_chains_clean_nonzero_exit
                     (Samples.env_cleaner_fails "Darwin" "boom")
                     (Samples.params (Py.PyBool true)) Samples.paths Samples.executables
                     (fs Samples.chains_world) [] "filled" "/usr/bin"
                     (Completed 1 "cleaner output" "boom") _ _ _ _ _ _) _)).
    + vm_compute. reflexivity.
    + reflexivity.
    + vm_compute. discriminate.
    + vm_compute. reflexivity.
    + discriminate.
    + reflexivity.
Defined.

Section CleanInput.
Variable env : Env.

(** With the flag [True] the step reads the filled chain, with [False]
    the merged chain. *)
Lemma select_input_bool params pp f t (b : bool) :
  fill_chain params = Py.PyBool b ->
  (clean_chain_step.select_input params pp (MkWorld f t)).1
  = Ok (if b then filled_chain pp else merged_chain pp).
Proof.
  intros E. rewrite select_input_run, E. by destruct b.
Qed.

(** X15. A missing input is an error, raised before anything is moved or
    started: the step has only written its first log line. *)
Lemma do_chains_clean_missing_input params pp ex f t :
  let input := if Py.is_True (fill_chain params)
               then filled_chain pp else merged_chain pp in
  is_file f input = false ->
  exists msg,
    clean_chain_step.do_chains_clean env params pp ex (MkWorld f t)
    = (Raise (RuntimeError ("Cannot find " +:+ input)),
       MkWorld f (t ++ [EvLog msg])).
Proof.
  intros input Hmissing.
  unfold clean_chain_step.do_chains_clean, bind at 1.
  rewrite select_input_run. subst input.
  destruct (Py.is_True (fill_chain params)); eexists;
    unfold isfile, bind, get_fs, ret, raise; cbn [fs]; rewrite Hmissing;
    reflexivity.
Qed.

End CleanInput.

(** C1 at the failing input. The command line declares [--fill_chain]
    with [type=int] and default 1, so an enabled fill step reaches the
    clean step as the integer 1. [1 is True] is false: the step logs that
    the fill step was skipped and moves the merged chain, although the
    flag is set and the filled chain exists. *)
Theorem do_chains_clean_int_flag_selects_merged :
  let params := Samples.params (Py.PyInt 1) in
  let out := clean_chain_step.do_chains_clean (Samples.env_exit "Linux" 0 "")
               params Samples.paths Samples.executables Samples.chains_world in
  Py.truthy (fill_chain params) = true
  /\ is_file (fs Samples.chains_world) (filled_chain Samples.paths) = true
  /\ (clean_chain_step.select_input params Samples.paths Samples.chains_world).1
     = Ok (merged_chain Samples.paths)
  /\ exists rest,
       events_since Samples.chains_world out.2
       = EvLog "Fill chains step was skipped: using /p/merged.chain.gz as input"
         :: EvMove "/p/merged.chain.gz" "/p/before_cleaning.chain.gz"
         :: rest.
Proof.
  cbv zeta. repeat split; try (vm_compute; reflexivity).
  eexists. vm_compute. reflexivity.
Qed.

(** ** The parameter store *)

Lemma mapM_members (l : list (string * parameter_store.value)) :
  mapM parameter_store.member_of_json (map parameter_store.member_to_json l) = Some l.
Proof.
  induction l as [|[k v] l IH]; [reflexivity|].
  change (map parameter_store.member_to_json ((k, v) :: l))
    with ((k, parameter_store.to_json v) :: map parameter_store.member_to_json l).
  change (mapM parameter_store.member_of_json
            ((k, parameter_store.to_json v) :: map parameter_store.member_to_json l))
    with (y ← parameter_store.member_of_json (k, parameter_store.to_json v);
          r ← mapM parameter_store.member_of_json (map parameter_store.member_to_json l);
          mret (y :: r)).
  rewrite IH. by destruct v.
Qed.

Lemma parse_dump (x : gmap string parameter_store.value) :
  parameter_store.parse (parameter_store.dump x) = Some x.
Proof.
  unfold parameter_store.parse, parameter_store.dump.
  by rewrite mapM_members, list_to_map_to_list.
Qed.

(** C7. Loading what was persisted gives back the record, whatever the
    record and the project directory are: every entry, the derived
    sequence directories and lengths included, has the value it had.
    [load] reads the stored document only. *)
Theorem load_persist_roundtrip (PARAMS_JSON : string)
    (x : gmap string parameter_store.value) (project_dir : string)
    (docs : gmap string parameter_store.json) :
  parameter_store.load PARAMS_JSON project_dir
    (parameter_store.persist PARAMS_JSON x project_dir docs) = Some x.
Proof.
  unfold parameter_store.load, parameter_store.persist.
  rewrite lookup_insert_eq. apply parse_dump.
Qed.

(** The derived fields of a built record come back as they were built. *)
Corollary load_persist_derived_fields (PARAMS_JSON : string)
    (options : gmap string parameter_store.value) (d1 d2 : string) (n1 n2 : Z)
    (project_dir : string) (docs : gmap string parameter_store.json) :
  exists y,
    parameter_store.load PARAMS_JSON project_dir
      (parameter_store.persist PARAMS_JSON
         (parameter_store.build options d1 d2 n1 n2) project_dir docs) = Some y
    /\ y !! "seq_1_dir" = Some (parameter_store.VStr d1)
    /\ y !! "seq_2_dir" = Some (parameter_store.VStr d2)
    /\ y !! "seq_1_len" = Some (parameter_store.VInt n1)
    /\ y !! "seq_2_len" = Some (parameter_store.VInt n2).
Proof.
  eexists. split.
  - unfold parameter_store.load, parameter_store.persist.
    rewrite lookup_insert_eq. apply parse_dump.
  - unfold parameter_store.build. repeat split; by simplify_map_eq.
Qed.

(** * Further properties of the steps *)

(** ** chain_run_step.py *)

Lemma is_file_insert_dir f p q :
  is_file f p = false -> is_file (<[q := Dir]> f) p = false.
Proof.
  unfold is_file. intros H. destruct (decide (q = p)) as [->|Hne].
  - by rewrite lookup_insert_eq.
  - by rewrite lookup_insert_ne.
Qed.

Lemma removed_other p q (g : gmap string node) :
  q <> p -> below p q = false -> removed p g !! q = g !! q.
Proof.
  intros Hne Hb. unfold removed.
  destruct (g !! q) as [n|] eqn:E.
  - apply map_lookup_filter_Some. split; [done|]. simpl.
    rewrite Hb, orb_false_r. destruct (String.eqb_spec q p); [done|]. simpl. auto.
  - apply map_lookup_filter_None. by left.
Qed.

Section SortPhaseMore.
Variable env : Env.
Variable c : Constants.

(** The sort phase when its directories are in order, step by step. *)
Lemma psl_bundle_sort_started cat crd psa f t :
  let tmp := Py.path_join crd [PSL_SORT_TEMP_DIRNAME c] in
  let sorted := Py.path_join crd [SORTED_PSL_DIRNAME c] in
  let cmd := Argv (chain_run_step.sort_cmd psa sorted tmp
                     (Py.str_join " " (map (fun x => Py.path_join cat [x])
                                         (entries f cat)))) in
  is_dir f cat = true ->
  is_file f tmp = false ->
  is_file f sorted = false ->
  exists seen,
    is_dir seen tmp = true /\ is_dir seen sorted = true
    /\ chain_run_step.psl_bundle_sort env c cat crd psa (MkWorld f t)
       = match run env cmd None seen with
         | None => (Raise (OSError "cannot start the program"),
                    MkWorld seen (t ++ [EvSpawn cmd None seen]))
         | Some (out, g) =>
             match g !! tmp with
             | Some Dir => (Ok sorted, MkWorld (removed tmp g) (t ++ [EvSpawn cmd None seen]))
             | Some (File _) =>
                 (Raise (OSError ("Not a directory: " +:+ tmp)),
                  MkWorld g (t ++ [EvSpawn cmd None seen]))
             | None =>
                 (Raise (OSError ("No such file or directory: " +:+ tmp)),
                  MkWorld g (t ++ [EvSpawn cmd None seen]))
             end
         end.
Proof.
  cbv zeta. cbn [Py.path_join fold_left]. intros Hcat Htmp Hsorted.
  set (tmp := Py.join1 crd (PSL_SORT_TEMP_DIRNAME c)) in *.
  set (sorted := Py.join1 crd (SORTED_PSL_DIRNAME c)) in *.
  assert (Hf1 : exists f1, is_dir f1 tmp = true /\ is_file f1 sorted = false
            /\ makedirs_exist_ok tmp (MkWorld f t) = (Ok tt, MkWorld f1 t)).
  { unfold makedirs_exist_ok, bind, get_fs, put_fs, ret. cbn [fs trace].
    unfold is_file in Htmp. destruct (f !! tmp) as [[?|]|] eqn:E; [discriminate| |].
    - exists f. by rewrite (is_dir_lookup _ _ E).
    - exists (<[tmp := Dir]> f). rewrite is_dir_insert.
      by rewrite (is_file_insert_dir _ _ _ Hsorted). }
  destruct Hf1 as (f1 & Hd1 & Hs1 & Hmk1).
  assert (Hf2 : exists f2, is_dir f2 tmp = true /\ is_dir f2 sorted = true
            /\ makedirs_exist_ok sorted (MkWorld f1 t) = (Ok tt, MkWorld f2 t)).
  { unfold makedirs_exist_ok, bind, get_fs, put_fs, ret. cbn [fs trace].
    unfold is_file in Hs1. destruct (f1 !! sorted) as [[?|]|] eqn:E; [discriminate| |].
    - exists f1. by rewrite (is_dir_lookup _ _ E).
    - exists (<[sorted := Dir]> f1). rewrite is_dir_insert.
      by rewrite (is_dir_insert_mono _ _ _ Hd1). }
  destruct Hf2 as (f2 & Hd2 & Hs2 & Hmk2).
  exists f2. split; [done|]. split; [done|].
  unfold chain_run_step.psl_bundle_sort. cbn [Py.path_join fold_left].
  fold tmp sorted.
  unfold listdir, subprocess_call, spawn, rmtree, bind, ret, raise, get_fs,
    put_fs, emit.
  cbn beta iota zeta delta [fs trace]. rewrite Hcat.
  cbn beta iota zeta delta [fs trace]. rewrite Hmk1.
  cbn beta iota zeta delta [fs trace]. rewrite Hmk2.
  cbn beta iota zeta delta [fs trace].
  destruct (run env _ None f2) as [[out g]|]; [|reflexivity].
  cbn beta iota zeta delta [fs trace].
  destruct (g !! tmp) as [[?|]|]; reflexivity.
Qed.

Variable bundle_chrom_split_psl_files : string -> string -> string -> Z -> M unit.

(** X1. Without the concatenation directory [psl_bundle] raises at once:
    nothing is created, nothing is started, the bundler is not called. *)
Theorem psl_bundle_without_cat_dir cat crd psa params w :
  is_dir (fs w) cat = false ->
  exists m,
    chain_run_step.psl_bundle env c bundle_chrom_split_psl_files cat crd psa params w
    = (Raise (OSError m), w).
Proof.
  destruct w as [f t]. cbn [fs]. intros Hcat. eexists.
  unfold chain_run_step.psl_bundle, chain_run_step.psl_bundle_sort,
    listdir, bind, get_fs, raise.
  cbn beta iota zeta delta [fs trace]. rewrite Hcat. reflexivity.
Qed.

(** X2. When the sort program cannot be started, [psl_bundle] raises the
    operating-system error, the bundler is not called, and the temporary
    sort directory stays behind: nothing removes it on this path. *)
Theorem psl_bundle_unstartable_sort_leaves_temp_dir cat crd psa params f t :
  let tmp := Py.path_join crd [PSL_SORT_TEMP_DIRNAME c] in
  let sorted := Py.path_join crd [SORTED_PSL_DIRNAME c] in
  is_dir f cat = true ->
  is_file f tmp = false ->
  is_file f sorted = false ->
  (forall cmd g, run env cmd None g = None) ->
  exists m cmd seen,
    chain_run_step.psl_bundle env c bundle_chrom_split_psl_files cat crd psa params
      (MkWorld f t)
    = (Raise (OSError m), MkWorld seen (t ++ [EvSpawn cmd None seen]))
    /\ is_dir seen tmp = true.
Proof.
  intros tmp sorted Hcat Htmp Hsorted Hrun.
  destruct (psl_bundle_sort_started cat crd psa f t Hcat Htmp Hsorted)
    as (seen & Hd & _ & Hsort).
  rewrite Hrun in Hsort.
  eexists _, _, seen. split; [|exact Hd].
  unfold chain_run_step.psl_bundle, bind. rewrite Hsort. reflexivity.
Qed.

(** X3. With its directories in order the sort phase starts exactly one
    process, the sort, and logs nothing; this also holds for an empty
    concatenation directory, where the last argument is the empty
    string. *)
Theorem psl_bundle_sort_starts_one_process cat crd psa f t :
  let tmp := Py.path_join crd [PSL_SORT_TEMP_DIRNAME c] in
  let sorted := Py.path_join crd [SORTED_PSL_DIRNAME c] in
  let out := chain_run_step.psl_bundle_sort env c cat crd psa (MkWorld f t) in
  is_dir f cat = true ->
  is_file f tmp = false ->
  is_file f sorted = false ->
  exists seen last,
    events_since (MkWorld f t) out.2
    = [EvSpawn (Argv [psa; "nohead"; sorted; tmp; last]) None seen]
    /\ last = Py.str_join " " (map (fun x => Py.path_join cat [x]) (entries f cat))
    /\ (entries f cat = [] -> last = "").
Proof.
  intros tmp sorted out Hcat Htmp Hsorted.
  destruct (psl_bundle_sort_started cat crd psa f t Hcat Htmp Hsorted)
    as (seen & _ & _ & Hsort).
  exists seen, (Py.str_join " " (map (fun x => Py.path_join cat [x]) (entries f cat))).
  split; [|split; [reflexivity | by intros ->]].
  subst out. rewrite Hsort.
  destruct (run env _ None seen) as [[o g]|]; [destruct (g !! _) as [[?|]|]|];
    cbn [snd]; by rewrite events_since_app.
Qed.

(** X4. After the sort phase, only the temporary directory and what lies
    below it are gone: every other path is as the sort left it. *)
Theorem psl_bundle_sort_removes_temp_dir_only
    cat crd psa w s w' cmd po seen out g p :
  let tmp := Py.path_join crd [PSL_SORT_TEMP_DIRNAME c] in
  chain_run_step.psl_bundle_sort env c cat crd psa w = (Ok s, w') ->
  In (EvSpawn cmd po seen) (events_since w w') ->
  run env cmd po seen = Some (out, g) ->
  p <> tmp ->
  below tmp p = false ->
  fs w' !! p = g !! p.
Proof.
  destruct w as [f t]. intros tmp Hrun Hin Hchild Hne Hbelow.
  destruct (psl_bundle_sort_inv _ _ _ _ _ _ _ _ _ _ _ _ Hrun Hin)
    as (_ & -> & -> & _ & _ & _ & Hafter).
  rewrite Hchild in Hafter. fold tmp in Hafter.
  destruct (g !! tmp) as [[?|]|].
  - by destruct Hafter as [[m Hm] _].
  - destruct Hafter as [_ ->]. by apply removed_other.
  - by destruct Hafter as [[m Hm] _].
Qed.

(** X5. Once the sort phase has returned, [psl_bundle] makes the split
    directory and hands the bundler the sorted directory, the first
    sequence's lengths, the split directory and the bundle bound. *)
Theorem psl_bundle_calls_bundler cat crd psa params w s w1 :
  let split_dir := Py.path_join crd [SPLIT_PSL_DIRNAME c] in
  chain_run_step.psl_bundle_sort env c cat crd psa w = (Ok s, w1) ->
  is_file (fs w1) split_dir = false ->
  exists w2,
    chain_run_step.psl_bundle env c bundle_chrom_split_psl_files cat crd psa params w
    = bundle_chrom_split_psl_files s (seq_1_len params) split_dir (BUNDLE_PSL_MAX_BASES c) w2
    /\ is_dir (fs w2) split_dir = true
    /\ trace w2 = trace w1 ++ [EvCall "bundle_chrom_split_psl_files" [s; split_dir]]
    /\ (forall q n, fs w1 !! q = Some n -> fs w2 !! q = Some n).
Proof.
  intros split_dir Hsort Hsplit. destruct w1 as [f1 t1]. cbn [fs trace] in *.
  unfold chain_run_step.psl_bundle, bind at 1. rewrite Hsort.
  unfold chain_run_step.psl_bundle_split, makedirs_exist_ok, bind, get_fs, put_fs,
    ret, raise, emit.
  cbn beta iota zeta delta [fs trace Py.path_join fold_left].
  subst split_dir. cbn [Py.path_join fold_left] in *.
  set (split_dir := Py.join1 crd (SPLIT_PSL_DIRNAME c)) in *.
  unfold is_file in Hsplit.
  destruct (f1 !! split_dir) as [[?|]|] eqn:E; [discriminate| |];
    cbn beta iota zeta delta [fs trace]; eexists; (split; [reflexivity|]);
    cbn [fs trace].
  - split; [by apply is_dir_lookup|]. by split.
  - split; [apply is_dir_insert|]. split; [done|].
    intros q n Hq. by apply insert_keeps.
Qed.
End SortPhaseMore.

(** ** More on the job list *)

Section JoblistMore.
Variable c : Constants.

(** X6. [make_chains_joblist] starts nothing and logs nothing, and every
    node that was there is still there, whether it returns or raises.
    When the chain-run directory exists and the name of the output
    directory is a single path component, the output directory is the
    only path that can differ afterwards. *)
Theorem make_chains_joblist_touches_out_dir_only crd params ex w :
  let out_dir := Py.path_join crd [CHAIN_RUN_OUT_DIRNAME c] in
  let res := chain_run_step.make_chains_joblist c crd params ex w in
  trace res.2 = trace w
  /\ (forall p n, fs w !! p = Some n -> fs res.2 !! p = Some n)
  /\ (is_dir (fs w) crd = true ->
      Py.contains (CHAIN_RUN_OUT_DIRNAME c) "/" = false ->
      forall p, p <> out_dir -> fs res.2 !! p = fs w !! p).
Proof.
  destruct w as [f t]. cbv zeta.
  unfold chain_run_step.make_chains_joblist, makedirs_exist_ok, listdir, bind,
    get_fs, put_fs, ret, raise.
  cbn beta iota zeta delta [fs trace Py.path_join fold_left].
  destruct (f !! Py.join1 crd (CHAIN_RUN_OUT_DIRNAME c)) as [[?|]|] eqn:E;
    cbn beta iota zeta delta [fs trace];
    try match goal with |- context [if ?b then _ else _] => destruct b end;
    cbn [fst snd fs trace]; repeat split; try done.
  all: try (intros p n Hp; by apply insert_keeps).
  all: intros _ _ p Hp; by rewrite lookup_insert_ne.
Qed.

(** X7. Without the split directory [make_chains_joblist] raises, but only
    after it has made the chain output directory, which stays. *)
Theorem make_chains_joblist_without_split_dir crd params ex f t :
  let split_dir := Py.path_join crd [SPLIT_PSL_DIRNAME c] in
  let out_dir := Py.path_join crd [CHAIN_RUN_OUT_DIRNAME c] in
  is_file f out_dir = false ->
  is_dir f split_dir = false ->
  split_dir <> out_dir ->
  exists m f',
    chain_run_step.make_chains_joblist c crd params ex (MkWorld f t)
    = (Raise (OSError m), MkWorld f' t)
    /\ is_dir f' out_dir = true.
Proof.
  cbv zeta. cbn [Py.path_join fold_left]. intros Hout Hsplit Hne.
  unfold chain_run_step.make_chains_joblist, makedirs_exist_ok, listdir, bind,
    get_fs, put_fs, ret, raise.
  cbn beta iota zeta delta [fs trace Py.path_join fold_left].
  unfold is_file in Hout.
  destruct (f !! Py.join1 crd (CHAIN_RUN_OUT_DIRNAME c)) as [[?|]|] eqn:E;
    [discriminate| |]; cbn beta iota zeta delta [fs trace].
  - rewrite Hsplit. eexists _, f. split; [reflexivity | by apply is_dir_lookup].
  - assert (Hs : is_dir (<[Py.join1 crd (CHAIN_RUN_OUT_DIRNAME c) := Dir]> f)
                   (Py.join1 crd (SPLIT_PSL_DIRNAME c)) = false).
    { unfold is_dir in *. by rewrite lookup_insert_ne. }
    rewrite Hs. eexists _, _. split; [reflexivity | apply is_dir_insert].
Qed.
End JoblistMore.

(** ** The job list file *)

Lemma contains_char_cons (a b : ascii) (s : string) :
  Py.contains (String a s) (String b "")
  = Ascii.eqb a b || Py.contains s (String b "").
Proof.
  rewrite contains_unfold, prefix_cons, prefix_nil.
  destruct (ascii_dec b a) as [->|Hne].
  - by rewrite Ascii.eqb_refl.
  - destruct (Ascii.eqb_spec a b); [congruence | reflexivity].
Qed.

Lemma split_on_no_sep (c : ascii) (x : string) :
  Py.contains x (String c "") = false -> Py.split_on c x = [x].
Proof.
  induction x as [|a x IH]; [reflexivity|].
  rewrite contains_char_cons. intros [Ha Hx]%orb_false_elim.
  cbn [Py.split_on]. rewrite Ha, (IH Hx). reflexivity.
Qed.

Lemma split_on_app_sep (c : ascii) (x rest : string) :
  Py.contains x (String c "") = false ->
  Py.split_on c (x +:+ String c rest) = x :: Py.split_on c rest.
Proof.
  induction x as [|a x IH].
  - intros _. change ("" +:+ String c rest) with (String c rest).
    cbn [Py.split_on]. by rewrite Ascii.eqb_refl.
  - rewrite contains_char_cons. intros [Ha Hx]%orb_false_elim.
    change (String a x +:+ String c rest) with (String a (x +:+ String c rest)).
    cbn [Py.split_on]. rewrite Ha, (IH Hx). reflexivity.
Qed.

(** X8. The job list file holds the commands joined by newlines, so
    splitting it at the newlines gives back exactly the commands, one per
    line, as long as there is at least one command and none contains a
    newline. *)
Theorem joblist_lines_roundtrip (jobs : list string) :
  jobs <> [] ->
  Forall (fun j => Py.contains j nl = false) jobs ->
  Py.split_on "010" (Py.str_join nl jobs) = jobs.
Proof.
  unfold Py.str_join. induction jobs as [|j jobs IH]; [congruence|].
  intros _ Hall. apply Forall_cons in Hall as [Hj Hjobs].
  destruct jobs as [|k jobs].
  - cbn [String.concat]. by apply split_on_no_sep.
  - change (String.concat nl (j :: k :: jobs))
      with (j +:+ String "010" ("" +:+ String.concat nl (k :: jobs))).
    rewrite split_on_app_sep by exact Hj.
    change ("" +:+ String.concat nl (k :: jobs)) with (String.concat nl (k :: jobs)).
    rewrite IH; [reflexivity | discriminate | exact Hjobs].
Qed.

(** ** The chain-run step as a whole *)

Section ChainRun.
Variable env : Env.
Variable c : Constants.
Variable bundle_chrom_split_psl_files : string -> string -> string -> Z -> M unit.
Variable nextflow_execute : string -> string -> M unit.
Variable nextflow_cleanup : M unit.
Variable LASTZ_CONFIG_PATH : string.

(** X9. When bundling and the job list succeed, [do_chain_run] writes the
    job list file, one command per line, before it calls the runner, and
    the step then is the runner followed by its cleanup: when the runner
    raises, the step raises the same error and the cleanup is not run. *)
Theorem do_chain_run_writes_joblist_then_runs
    project_dir params ex w w0 w1 w2 jobs :
  let cat := Py.path_join project_dir [TEMP_CAT_DIRNAME c] in
  let crd := Py.path_join project_dir [TEMP_AXT_CHAIN_DIRNAME c] in
  let joblist := Py.path_join crd [CHAIN_JOBLIST_FILENAME c] in
  let w3 := MkWorld (<[joblist := File (Py.str_join nl jobs)]> (fs w2))
              (trace w2 ++ [EvCall "NextflowWrapper.execute"
                              [joblist; LASTZ_CONFIG_PATH; crd]]) in
  let step := chain_run_step.do_chain_run env c bundle_chrom_split_psl_files
                nextflow_execute nextflow_cleanup LASTZ_CONFIG_PATH
                project_dir params ex in
  makedirs_exist_ok crd w = (Ok tt, w0) ->
  chain_run_step.psl_bundle env c bundle_chrom_split_psl_files cat crd
    (step_executables.psl_sort_acc ex) params w0 = (Ok tt, w1) ->
  chain_run_step.make_chains_joblist c crd params ex w1 = (Ok jobs, w2) ->
  is_dir (fs w2) joblist = false ->
  step w = (_ <- nextflow_execute joblist crd ;; nextflow_cleanup) w3
  /\ (forall e w4, nextflow_execute joblist crd w3 = (Raise e, w4) ->
        step w = (Raise e, w4)).
Proof.
  intros cat crd joblist w3 step Hmk Hbundle Hjobs Hfile.
  assert (Hstep : step w = (_ <- nextflow_execute joblist crd ;; nextflow_cleanup) w3).
  { subst step. unfold chain_run_step.do_chain_run. fold cat crd joblist.
    unfold bind at 1. rewrite Hmk. unfold bind at 1. rewrite Hbundle.
    unfold bind at 1. rewrite Hjobs.
    destruct w2 as [f2 t2]. cbn [fs trace] in *.
    unfold open_write, handle_write, emit, get_fs, put_fs, raise, bind at 1 2 3 4 5 6.
    cbn beta iota zeta delta [fs trace].
    unfold is_dir in Hfile.
    destruct (f2 !! joblist) as [[?|]|]; try discriminate;
      cbn beta iota zeta delta [fs trace]; subst w3;
      by rewrite insert_insert_eq. }
  split; [exact Hstep|].
  intros e w4 He. rewrite Hstep. unfold bind. by rewrite He.
Qed.
End ChainRun.

(** ** More on the chain-clean step *)

Section CleanMore.
Variable env : Env.

(** A run up to the start of the cleaner, whatever the cleaner does. *)
Lemma do_chains_clean_reaches_cleaner params pp ex f t content path :
  let input := if Py.is_True (fill_chain params)
               then filled_chain pp else merged_chain pp in
  let output := Py.removesuffix input ".gz" in
  let cmd := clean_chain_step.chain_cleaner_cmd params pp ex output in
  let f1 := <[before_cleaning_chain pp := File content]> (delete input f) in
  let f2 := <[chain_cleaner_log pp := File ""]> f1 in
  let tc := t ++ clean_chain_step.events_to_cleaner params pp ex path f2 in
  f !! input = Some (File content) ->
  environ_PATH env = Some path ->
  f1 !! chain_cleaner_log pp <> Some Dir ->
  clean_chain_step.do_chains_clean env params pp ex (MkWorld f t)
  = match run env (Argv cmd) (Some (chain_clean_micro_env pp +:+ ":" +:+ path)) f2 with
    | None => (Raise (OSError "cannot start the program"), MkWorld f2 tc)
    | Some (out, g) =>
        let g' := <[chain_cleaner_log pp := File (stdout out)]> g in
        let tz := tc ++ (if (returncode out =? 0)%Z then []
                         else [EvLog clean_chain_step.macos_message])
                     ++ [EvLog ("Chain clean results saved to: " +:+ output);
                         EvSpawn (Argv ["gzip"; output]) None g'] in
        if negb (returncode out =? 0)%Z
           && negb (String.eqb (platform_system env) "Darwin")
        then (Raise (PipelineSubprocessError
                       (clean_chain_step.died_message (stderr out))),
              MkWorld g' tc)
        else match run env (Argv ["gzip"; output]) None g' with
             | Some (gz, h) =>
                 if (returncode gz =? 0)%Z
                 then (Ok tt, MkWorld h (tz ++ [EvLog "Chain clean DONE"]))
                 else (Raise (PipelineSubprocessError
                                "gzip command at clean chain step failed"),
                       MkWorld h tz)
             | None => (Raise (OSError "cannot start the program"), MkWorld g' tz)
             end
    end.
Proof.
  intros input output cmd f1 f2 tc Hin Hpath Hlog.
  assert (Hsel : clean_chain_step.select_input params pp (MkWorld f t)
                 = (Ok input, MkWorld f (t ++ [hd EvPrintHelp
                      (clean_chain_step.events_to_cleaner params pp ex path f2)]))).
  { rewrite select_input_run. subst input. cbn [clean_chain_step.events_to_cleaner hd].
    by destruct (Py.is_True _). }
  subst tc. unfold clean_chain_step.events_to_cleaner. cbn [hd] in Hsel.
  fold input output cmd.
  unfold clean_chain_step.do_chains_clean.
  unfold bind at 1. rewrite Hsel. fold output cmd.
  unfold isfile, move, to_log, open_write, handle_write,
    subprocess_check_call, try_except, spawn, bind, ret, raise, get_fs, put_fs,
    emit.
  cbn beta iota zeta delta [fs trace]. unfold is_file.
  repeat (cbn beta iota zeta delta [fs trace negb];
          first [ rewrite Hin | rewrite Hpath ]).
  cbn beta iota zeta delta [fs trace negb]. fold f1.
  destruct (f1 !! chain_cleaner_log pp) as [[?|]|]; [| by destruct Hlog |].
  all: cbn beta iota zeta delta [fs trace negb]; fold f2.
  all: destruct (run env (Argv cmd) _ f2) as [[out g]|];
    [|by rewrite <- !app_assoc].
  all: cbn beta iota zeta delta [fs trace negb].
  all: destruct (returncode out =? 0)%Z; cbn beta iota zeta delta [fs trace negb andb].
  all: try (destruct (platform_system env =? "Darwin")%string;
            cbn beta iota zeta delta [fs trace negb andb];
            [|by rewrite <- !app_assoc]).
  all: cbn beta iota zeta delta [fs trace negb andb].
  all: destruct (run env (Argv ["gzip"; output]) None _) as [[gz h]|];
    [|by rewrite <- !app_assoc].
  all: cbn beta iota zeta delta [fs trace negb].
  all: destruct (returncode gz =? 0)%Z; cbn beta iota zeta delta [fs trace negb].
  all: by rewrite <- !app_assoc.
Qed.

(** X10. When the cleaner exits with status 0 the platform plays no role:
    the outcome is that of the compression. A failed gzip is the fatal
    subprocess error, a gzip that cannot be started is the uncaught
    operating-system error, and [Chain clean DONE] is logged exactly when
    the step returns normally. *)
Theorem do_chains_clean_after_clean_exit params pp ex f t content path out g :
  let input := if Py.is_True (fill_chain params)
               then filled_chain pp else merged_chain pp in
  let output := Py.removesuffix input ".gz" in
  let cmd := clean_chain_step.chain_cleaner_cmd params pp ex output in
  let f1 := <[before_cleaning_chain pp := File content]> (delete input f) in
  let f2 := <[chain_cleaner_log pp := File ""]> f1 in
  let g' := <[chain_cleaner_log pp := File (stdout out)]> g in
  let res := clean_chain_step.do_chains_clean env params pp ex (MkWorld f t) in
  f !! input = Some (File content) ->
  environ_PATH env = Some path ->
  f1 !! chain_cleaner_log pp <> Some Dir ->
  run env (Argv cmd) (Some (chain_clean_micro_env pp +:+ ":" +:+ path)) f2
    = Some (out, g) ->
  returncode out = 0%Z ->
  res.1 = match run env (Argv ["gzip"; output]) None g' with
          | Some (gz, _) =>
              if (returncode gz =? 0)%Z then Ok tt
              else Raise (PipelineSubprocessError
                            "gzip command at clean chain step failed")
          | None => Raise (OSError "cannot start the program")
          end
  /\ events_since (MkWorld f t) res.2
     = clean_chain_step.events_to_cleaner params pp ex path f2
       ++ [EvLog ("Chain clean results saved to: " +:+ output);
           EvSpawn (Argv ["gzip"; output]) None g']
       ++ match res.1 with Ok _ => [EvLog "Chain clean DONE"] | Raise _ => [] end.
Proof.
  intros input output cmd f1 f2 g' res Hin Hpath Hlog Hchild Hrc.
  pose proof (do_chains_clean_reaches_cleaner params pp ex f t content path
                Hin Hpath Hlog) as Hrun.
  cbv zeta in Hrun. fold input output cmd f1 f2 in Hrun. fold res in Hrun.
  rewrite Hchild, Hrc in Hrun. cbn [Z.eqb negb andb] in Hrun. fold g' in Hrun.
  clearbody res. subst res.
  destruct (run env (Argv ["gzip"; output]) None g') as [[gz h]|];
    [destruct (returncode gz =? 0)%Z|]; cbn [fst snd].
  all: split; [reflexivity|].
  all: rewrite <- ?app_assoc, events_since_app; cbn [app]; by rewrite <- ?app_assoc.
Qed.

(** X11. The cleaner is started on a filesystem where the input has been
    moved aside: the before-cleaning path holds the input's content, the
    input path is gone, and the log file is empty. Its search path is the
    process's, with the cleaner's environment directory put first. *)
Theorem do_chains_clean_moves_input_aside params pp ex f t content path :
  let input := if Py.is_True (fill_chain params)
               then filled_chain pp else merged_chain pp in
  let res := clean_chain_step.do_chains_clean env params pp ex (MkWorld f t) in
  f !! input = Some (File content) ->
  environ_PATH env = Some path ->
  is_dir f (chain_cleaner_log pp) = false ->
  input <> before_cleaning_chain pp ->
  input <> chain_cleaner_log pp ->
  before_cleaning_chain pp <> chain_cleaner_log pp ->
  exists seen rest,
    events_since (MkWorld f t) res.2
    = clean_chain_step.events_to_cleaner params pp ex path seen ++ rest
    /\ seen !! before_cleaning_chain pp = Some (File content)
    /\ seen !! input = None
    /\ seen !! chain_cleaner_log pp = Some (File "").
Proof.
  intros input res Hin Hpath Hnd Hib Hil Hbl.
  set (f1 := <[before_cleaning_chain pp := File content]> (delete input f)).
  assert (Hlog : f1 !! chain_cleaner_log pp <> Some Dir).
  { subst f1. rewrite lookup_insert_ne by done.
    rewrite lookup_delete_ne by done. unfold is_dir in Hnd.
    by destruct (f !! chain_cleaner_log pp) as [[?|]|]. }
  pose proof (do_chains_clean_reaches_cleaner params pp ex f t content path
                Hin Hpath Hlog) as Hrun.
  cbv zeta in Hrun. fold input f1 in Hrun. fold res in Hrun.
  set (f2 := <[chain_cleaner_log pp := File ""]> f1) in *.
  exists f2.
  assert (Hev : exists rest, events_since (MkWorld f t) res.2
            = clean_chain_step.events_to_cleaner params pp ex path f2 ++ rest).
  { clearbody res. subst res.
    destruct (run env _ _ f2) as [[out g]|].
    - destruct (negb _ && negb _).
      + exists []. cbn [snd]. by rewrite events_since_app, app_nil_r.
      + destruct (run env (Argv ["gzip"; _]) None _) as [[gz h]|];
          [destruct (returncode gz =? 0)%Z|]; cbn [snd];
          eexists; rewrite <- ?app_assoc, events_since_app; reflexivity.
    - exists []. cbn [snd]. by rewrite events_since_app, app_nil_r. }
  destruct Hev as [rest Hev]. exists rest. split; [exact Hev|].
  subst f2 f1. repeat split.
  - rewrite lookup_insert_ne by done. by rewrite lookup_insert_eq.
  - rewrite lookup_insert_ne by done. rewrite lookup_insert_ne by done.
    by rewrite lookup_delete_eq.
  - by rewrite lookup_insert_eq.
Qed.

(** X12. Without a [PATH] variable the step raises [KeyError], after it
    has moved the input aside: the move is not undone, and neither the
    cleaner nor gzip is started. *)
Theorem do_chains_clean_without_PATH params pp ex f t content :
  let input := if Py.is_True (fill_chain params)
               then filled_chain pp else merged_chain pp in
  f !! input = Some (File content) ->
  environ_PATH env = None ->
  exists msg,
    clean_chain_step.do_chains_clean env params pp ex (MkWorld f t)
    = (Raise (KeyError "PATH"),
       MkWorld (<[before_cleaning_chain pp := File content]> (delete input f))
         (t ++ [EvLog msg; EvMove input (before_cleaning_chain pp);
                EvLog ("Chain to be cleaned saved to: "
                       +:+ before_cleaning_chain pp)])).
Proof.
  intros input Hin Hpath.
  unfold clean_chain_step.do_chains_clean, bind at 1.
  rewrite select_input_run. fold input.
  assert (Hsel : exists msg,
     (if Py.is_True (fill_chain params)
      then (Ok (filled_chain pp),
            MkWorld f (t ++ [EvLog ("Chains were filled: using " +:+ filled_chain pp
                                    +:+ " as input")]))
      else (Ok (merged_chain pp),
            MkWorld f (t ++ [EvLog ("Fill chains step was skipped: using "
                                    +:+ merged_chain pp +:+ " as input")])))
     = (Ok input, MkWorld f (t ++ [EvLog msg]))).
  { subst input. destruct (Py.is_True _); eexists; reflexivity. }
  destruct Hsel as [msg ->]. exists msg.
  unfold isfile, move, to_log, bind, ret, raise, get_fs, put_fs, emit.
  cbn beta iota zeta delta [fs trace]. unfold is_file.
  repeat (cbn beta iota zeta delta [fs trace negb];
          first [ rewrite Hin | rewrite Hpath ]).
  cbn beta iota zeta delta [fs trace negb]. by rewrite <- !app_assoc.
Qed.
End CleanMore.

(** ** The name of the cleaned chain *)

Lemma substring_all (s : string) : String.substring 0 (String.length s) s = s.
Proof. induction s as [|a s IH]; [reflexivity|]. simpl. by rewrite IH. Qed.

Lemma substring_cut (s : string) (k : nat) :
  k <= String.length s ->
  String.substring 0 k s +:+ String.substring k (String.length s - k) s = s.
Proof.
  revert k. induction s as [|a s IH]; intros k Hk.
  - simpl in Hk. replace k with 0 by lia. reflexivity.
  - destruct k as [|k].
    + change (String.substring 0 0 (String a s)) with "".
      rewrite Nat.sub_0_r. change ("" +:+ ?x) with x. apply substring_all.
    + simpl in Hk. simpl String.substring. simpl String.length.
      replace (S (String.length s) - S k) with (String.length s - k) by lia.
      change (String a ?x +:+ ?y) with (String a (x +:+ y)).
      rewrite IH by lia. reflexivity.
Qed.

(** X13. The cleaner writes to the input's name without a final [.gz].
    When the input name ends in [.gz], the cleaned chain, once gzip has
    added its suffix, carries the input's name again; otherwise the
    cleaner's output path is the input path itself. *)
Theorem cleaned_chain_name (input : string) :
  let output := Py.removesuffix input ".gz" in
  if Py.endswith input ".gz" then output +:+ ".gz" = input else output = input.
Proof.
  cbv zeta. unfold Py.removesuffix.
  destruct (Py.endswith input ".gz") eqn:E; [|reflexivity].
  change (negb (String.eqb ".gz" "")) with true. cbn [andb].
  unfold Py.endswith in E. apply andb_prop in E as [Hlen Hsuf].
  apply Nat.leb_le in Hlen. apply String.eqb_eq in Hsuf.
  rewrite <- Hsuf at 2.
  pose proof (substring_cut input (String.length input - String.length ".gz")) as Hcut.
  replace (String.length input - (String.length input - String.length ".gz"))
    with (String.length ".gz") in Hcut by lia.
  apply Hcut. lia.
Qed.

(** ** The arguments of the cleaner *)

Lemma is_word_one (a : ascii) : Py.is_space a = false -> Py.is_word (String a "").
Proof. intros Ha. split; [discriminate|]. by repeat constructor. Qed.

Lemma is_word_cons (a : ascii) (w : string) :
  Py.is_space a = false -> Py.is_word w -> Py.is_word (String a w).
Proof.
  intros Ha [_ Hw]. split; [discriminate|]. by constructor.
Qed.

Lemma split_ws_words (s : string) : Forall Py.is_word (Py.split_ws s).
Proof.
  induction s as [|a s IH]; [constructor|].
  cbn [Py.split_ws]. destruct (Py.is_space a) eqn:Ha; [exact IH|].
  destruct s as [|b s]; [constructor; [by apply is_word_one | constructor]|].
  destruct (Py.is_space b) eqn:Hb.
  - constructor; [by apply is_word_one | exact IH].
  - destruct (Py.split_ws (String b s)) as [|w ws].
    + constructor; [by apply is_word_one | constructor].
    + apply Forall_cons in IH as [Hw Hws].
      constructor; [by apply is_word_cons | exact Hws].
Qed.

Lemma split_ws_blank (s : string) :
  Forall (fun a => Py.is_space a = true) (String.list_ascii_of_string s) ->
  Py.split_ws s = [].
Proof.
  induction s as [|a s IH]; [reflexivity|].
  cbn [String.list_ascii_of_string]. intros [Ha Hs]%Forall_cons.
  cbn [Py.split_ws]. rewrite Ha. by apply IH.
Qed.

(** X14. The flags of [clean_chain_parameters] can only add arguments
    after the nine fixed ones, and each added argument is a word, never
    an empty string or one with whitespace; flags that are blank add
    nothing. *)
Theorem chain_cleaner_cmd_user_flags params pp ex output :
  let cmd := clean_chain_step.chain_cleaner_cmd params pp ex output in
  length cmd = 9 + length (Py.split_ws (clean_chain_parameters params))
  /\ Forall Py.is_word (drop 9 cmd)
  /\ (Forall (fun a => Py.is_space a = true)
        (String.list_ascii_of_string (clean_chain_parameters params)) ->
      length cmd = 9).
Proof.
  cbv zeta. unfold clean_chain_step.chain_cleaner_cmd.
  split; [by rewrite length_app|]. split.
  - cbn [app drop]. apply split_ws_words.
  - intros Hblank. by rewrite (split_ws_blank _ Hblank).
Qed.

(** ** bundle_psl_step.py *)

(** X16. [do_bundle_psl] starts exactly one process, the sort of
    concatenated.psl.gz inside the concatenation directory, through the
    shell and on the filesystem as it found it: it creates no directory
    and does not bundle. It returns normally when the sort exits with
    status 0 and raises [CalledProcessError] with the status otherwise. *)
Theorem do_bundle_psl_runs_sort_only env c project_dir params ex f t out g :
  let cat := Py.path_join project_dir [TEMP_CAT_DIRNAME c] in
  let line := step_executables.psl_sort_acc ex +:+ " nohead "
              +:+ Py.path_join cat ["sorted_psls"] +:+ " "
              +:+ Py.path_join cat ["sort_temp"] +:+ " "
              +:+ Py.path_join cat ["concatenated.psl.gz"] in
  run env (Shell line None) None f = Some (out, g) ->
  bundle_psl_step.do_bundle_psl env c project_dir params ex (MkWorld f t)
  = (if (returncode out =? 0)%Z then Ok tt
     else Raise (CalledProcessError (returncode out) (Shell line None)),
     MkWorld g (t ++ [EvSpawn (Shell line None) None f])).
Proof.
  intros cat line Hchild.
  unfold bundle_psl_step.do_bundle_psl, bundle_psl_step.sort_psl_file,
    bundle_psl_step.sort_command, subprocess_run_shell_check, spawn,
    bind, ret, raise, get_fs, put_fs, emit.
  cbn beta iota zeta delta [fs trace]. fold cat. fold line. rewrite Hchild.
  cbn beta iota zeta delta [fs trace].
  by destruct (returncode out =? 0)%Z.
Qed.

(** ** The entry point's own resolver *)

Section EntryPointInit.
Variable env : Env.
Variable SCRIPT_LOCATION : string.

Ltac step_cbn := cbn beta iota zeta delta [fs trace negb app List.filter].

Ltac tool_fails side :=
  eexists; split; [reflexivity|]; side; split; [cbn [In]; tauto | reflexivity].

(** What [StepExecutables()] of make_chains.py does, by the first tool
    it misses. *)
Lemma entry_point_init_cases f t :
  match make_chains.missing_tools env SCRIPT_LOCATION f with
  | [] =>
      exists ex,
        make_chains.init env SCRIPT_LOCATION (MkWorld f t) = (Ok ex, MkWorld f t)
        /\ Forall (fun p => is_file f p = true)
             [make_chains.partition_script ex; make_chains.lastz_wrapper ex;
              make_chains.split_chain_into_random_parts ex;
              make_chains.bundle_chrom_split_psl_files ex]
        /\ which env "faToTwoBit" = Some (make_chains.fa_to_two_bit ex)
        /\ which env "twoBitToFa" = Some (make_chains.two_bit_to_fa ex)
  | tool :: _ =>
      exists msg,
        make_chains.init env SCRIPT_LOCATION (MkWorld f t)
        = (Raise (ValueError msg), MkWorld f t)
        /\ (In tool make_chains.required_scripts
            /\ msg = "Error! Cannot locate script: " +:+ tool
            \/ In tool make_chains.required_binaries
               /\ msg = "Error! Cannot locate binary: " +:+ tool)
  end.
Proof.
  unfold make_chains.missing_tools, make_chains.required_scripts,
    make_chains.required_binaries, make_chains.script_missing,
    make_chains.binary_missing, make_chains.init, make_chains.find_script,
    make_chains.find_binary, isfile, bind, ret, raise, get_fs.
  repeat (step_cbn;
          match goal with
          | |- context [is_file f ?p] => destruct (is_file f p) eqn:?
          end).
  all: step_cbn; try (tool_fails ltac:(left)).
  all: destruct (which env "faToTwoBit") as [p1|] eqn:?; step_cbn;
    [|tool_fails ltac:(right)].
  all: destruct (which env "twoBitToFa") as [p2|] eqn:?; step_cbn;
    [|tool_fails ltac:(right)].
  eexists. split; [reflexivity|]. cbn. split; [|done].
  repeat constructor; assumption.
Qed.

(** X17. The entry point's constructor returns normally exactly when no
    required tool is missing; it never changes the world; when tools are
    missing it raises [ValueError] for the first one in the order
    of look-up, whatever else is missing. *)
Theorem entry_point_init_outcome f t :
  let res := make_chains.init env SCRIPT_LOCATION (MkWorld f t) in
  res.2 = MkWorld f t
  /\ (make_chains.missing_tools env SCRIPT_LOCATION f = [] <->
      exists ex, res.1 = Ok ex)
  /\ (forall tool rest,
        make_chains.missing_tools env SCRIPT_LOCATION f = tool :: rest ->
        res.1 = Raise (ValueError ("Error! Cannot locate script: " +:+ tool))
        \/ res.1 = Raise (ValueError ("Error! Cannot locate binary: " +:+ tool))).
Proof.
  cbv zeta. pose proof (entry_point_init_cases f t) as H.
  destruct (make_chains.missing_tools env SCRIPT_LOCATION f) as [|tool rest].
  - destruct H as (ex & -> & _). split; [reflexivity|]. split.
    + split; [by exists ex | done].
    + intros ? ? [=].
  - destruct H as (msg & -> & Hmsg). split; [reflexivity|]. split.
    + split; [done | by intros [ex [=]]].
    + intros ? ? [= <- <-]. cbn [fst].
      destruct Hmsg as [[_ ->]|[_ ->]]; [by left | by right].
Qed.

(** X18. When the constructor returns, every script attribute is an
    existing regular file and every binary attribute is what the search
    path gave. *)
Theorem entry_point_init_record f t ex w' :
  make_chains.init env SCRIPT_LOCATION (MkWorld f t) = (Ok ex, w') ->
  Forall (fun p => is_file f p = true)
    [make_chains.partition_script ex; make_chains.lastz_wrapper ex;
     make_chains.split_chain_into_random_parts ex;
     make_chains.bundle_chrom_split_psl_files ex]
  /\ which env "faToTwoBit" = Some (make_chains.fa_to_two_bit ex)
  /\ which env "twoBitToFa" = Some (make_chains.two_bit_to_fa ex).
Proof.
  intros Hrun. pose proof (entry_point_init_cases f t) as H.
  destruct (make_chains.missing_tools env SCRIPT_LOCATION f) as [|tool rest].
  - destruct H as (ex' & Hex & Hall). rewrite Hrun in Hex.
    injection Hex as -> _. exact Hall.
  - destruct H as (msg & Hmsg & _). rewrite Hrun in Hmsg. discriminate Hmsg.
Qed.
End EntryPointInit.

(** X19. A missing tool ends the pipeline after its set-up: the error is
    the constructor's [ValueError] for the first missing tool and the
    world is the one the set-up left, so the genome sequences are not
    prepared and no step is executed. *)
Theorem run_pipeline_missing_tool
    (env : Env) (SCRIPT_LOCATION version : string)
    {SM P RT : Type}
    (odm : make_chains.Namespace -> M string)
    (smn : string -> make_chains.Namespace -> M SM)
    (ppn : make_chains.Namespace -> M P)
    (setup_logger : string -> M unit)
    (dump_to_json : P -> string -> M unit)
    (sgs : string -> string -> string -> make_chains.StepExecutables -> M RT)
    (execute_steps : SM -> string -> P -> make_chains.StepExecutables -> M unit)
    (args : make_chains.Namespace) (w w1 : World) ready tool rest :
  make_chains.run_pipeline_setup env SCRIPT_LOCATION version
    odm smn ppn setup_logger dump_to_json args w = (Ok ready, w1) ->
  make_chains.missing_tools env SCRIPT_LOCATION (fs w1) = tool :: rest ->
  exists kind,
    make_chains.run_pipeline env SCRIPT_LOCATION version
      odm smn ppn setup_logger dump_to_json sgs execute_steps args w
    = (Raise (ValueError ("Error! Cannot locate " +:+ kind +:+ ": " +:+ tool)), w1)
    /\ (kind = "script" \/ kind = "binary").
Proof.
  intros Hsetup Hmiss. unfold make_chains.run_pipeline, bind at 1.
  rewrite Hsetup. destruct ready as [[project_dir step_manager] parameters].
  unfold bind at 1. destruct w1 as [f1 t1]. cbn [fs] in Hmiss.
  pose proof (entry_point_init_cases env SCRIPT_LOCATION f1 t1) as H.
  rewrite Hmiss in H. destruct H as (msg & -> & [[_ ->]|[_ ->]]).
  - exists "script". split; [reflexivity | by left].
  - exists "binary". split; [reflexivity | by right].
Qed.

(** ** The version banner *)

Section Version.
Variable env : Env.
Variable SCRIPT_LOCATION : string.
Variable version : string.

(** X20. When git fails, the banner reports [unknown] for commit and
    branch and [log_version] returns normally. A failure of the second
    command discards the hash the first one printed. *)
Theorem log_version_git_failure f t :
  let hash := Shell "git rev-parse HEAD" (Some SCRIPT_LOCATION) in
  let branch := Shell "git rev-parse --abbrev-ref HEAD" (Some SCRIPT_LOCATION) in
  let unknown := "Version " +:+ version +:+ nl +:+ "Commit: unknown" +:+ nl
                 +:+ "Branch: unknown" +:+ nl in
  let res := make_chains.log_version env SCRIPT_LOCATION version (MkWorld f t) in
  forall out g,
  run env hash None f = Some (out, g) ->
  (returncode out <> 0%Z ->
   res = (Ok unknown,
          MkWorld g (t ++ [EvSpawn hash None f; EvLog "# Make Lastz Chains #";
                           EvLog unknown])))
  /\ (returncode out = 0%Z ->
      forall out2 g2,
      run env branch None g = Some (out2, g2) ->
      returncode out2 <> 0%Z ->
      res = (Ok unknown,
             MkWorld g2 (t ++ [EvSpawn hash None f; EvSpawn branch None g;
                               EvLog "# Make Lastz Chains #"; EvLog unknown]))).
Proof.
  intros hash branch unknown res out g Hhash. subst res.
  unfold make_chains.log_version, try_except, subprocess_check_output_shell,
    spawn, to_log, bind, ret, raise, get_fs, put_fs, emit.
  cbn beta iota zeta delta [fs trace]. fold hash branch. rewrite Hhash.
  cbn beta iota zeta delta [fs trace]. split.
  - intros Hrc. destruct (Z.eqb_spec (returncode out) 0) as [E|_]; [contradiction|].
    cbn beta iota zeta delta [fs trace]. by rewrite <- !app_assoc.
  - intros Hrc out2 g2 Hbranch Hrc2. rewrite Hrc. cbn [Z.eqb].
    cbn beta iota zeta delta [fs trace]. rewrite Hbranch.
    cbn beta iota zeta delta [fs trace].
    destruct (Z.eqb_spec (returncode out2) 0) as [E|_]; [contradiction|].
    cbn beta iota zeta delta [fs trace]. by rewrite <- !app_assoc.
Qed.

(** X21. [log_version] never raises [CalledProcessError], and what it
    returns is what it logged last, after the banner line. *)
Theorem log_version_returns_logged_text w :
  let res := make_chains.log_version env SCRIPT_LOCATION version w in
  (forall rc cmd, res.1 <> Raise (CalledProcessError rc cmd))
  /\ (forall v, res.1 = Ok v ->
        exists spawns,
          events_since w res.2
          = spawns ++ [EvLog "# Make Lastz Chains #"; EvLog v]
          /\ Forall (fun ev => exists cmd seen, ev = EvSpawn cmd None seen) spawns
          /\ Py.startswith v ("Version " +:+ version +:+ nl +:+ "Commit: ") = true).
Proof.
  destruct w as [f t]. cbv zeta.
  unfold make_chains.log_version, try_except, subprocess_check_output_shell,
    spawn, to_log, bind, ret, raise, get_fs, put_fs, emit.
  cbn beta iota zeta delta [fs trace].
  assert (Hstart : forall h b,
    Py.startswith ("Version " +:+ version +:+ nl +:+ "Commit: " +:+ h +:+ nl
                   +:+ "Branch: " +:+ b +:+ nl)
      ("Version " +:+ version +:+ nl +:+ "Commit: ") = true).
  { intros h b. unfold Py.startswith.
    replace ("Version " +:+ version +:+ nl +:+ "Commit: " +:+ h +:+ nl
             +:+ "Branch: " +:+ b +:+ nl)
      with (("Version " +:+ version +:+ nl +:+ "Commit: ")
            +:+ (h +:+ nl +:+ "Branch: " +:+ b +:+ nl))
      by (by rewrite !str_app_assoc).
    apply prefix_app. }
  destruct (run env (Shell "git rev-parse HEAD" _) None f) as [[out g]|];
    cbn beta iota zeta delta [fs trace]; [|split; [done | intros v [=]]].
  destruct (returncode out =? 0)%Z; cbn beta iota zeta delta [fs trace].
  - destruct (run env (Shell "git rev-parse --abbrev-ref HEAD" _) None g)
      as [[out2 g2]|]; cbn beta iota zeta delta [fs trace];
      [|split; [done | intros v [=]]].
    destruct (returncode out2 =? 0)%Z; cbn beta iota zeta delta [fs trace].
    all: split; [done|]; intros v [= <-].
    all: eexists [_; _]; split;
      [cbn [fst snd]; rewrite <- !app_assoc; apply events_since_app
      |split; [repeat constructor; by eexists _, _ | apply Hstart]].
  - split; [done|]. intros v [= <-].
    eexists [_]; split;
      [cbn [fst snd]; rewrite <- !app_assoc; apply events_since_app
      |split; [repeat constructor; by eexists _, _ | apply Hstart]].
Qed.
End Version.

(** ** What the resolver records as missing *)

Lemma filter_cons_if {A} (p : A -> bool) (a : A) (l : list A) :
  List.filter p (a :: l) = (if p a then [a] else []) ++ List.filter p l.
Proof. cbn [List.filter]. by destruct (p a). Qed.

Section ResolverMissing.
Variable env : Env.
Variable f : gmap string node.
Variable c : Constants.
Variable root : string.

Lemma find_script_missing n :
  (step_executables.find_script env f root [] n).2
  = if negb (is_file f (Py.abspath (cwd env)
               (Py.path_join root ["standalone_scripts"; n])))
    then [n] else [].
Proof. unfold step_executables.find_script. by destruct (negb _). Qed.

Lemma find_binary_missing hl n :
  (step_executables.find_binary env f hl [] n).2
  = if match which env n with
       | Some _ => false
       | None => negb (path_exists f (Py.path_join hl [n]))
       end
    then [n] else [].
Proof.
  unfold step_executables.find_binary.
  destruct (which env n); [reflexivity|]. by destruct (negb _).
Qed.

Lemma locate_chain_net_missing ce n :
  (step_executables.locate_chain_net env f ce [] n).2
  = if negb (step_executables.on_search_path env n
             || is_file f (Py.path_join ce [n]))
    then [n] else [].
Proof.
  unfold step_executables.locate_chain_net.
  destruct (step_executables.on_search_path env n); [reflexivity|].
  by destruct (is_file _ _).
Qed.

(** X22. [not_found] holds exactly the tools the resolver could not
    find, in the order of the look-ups: a script when its file under
    standalone_scripts is not a regular file; a binary when it is neither
    on the search path nor present in the binaries directory; chainNet
    when it is neither on the search path nor a regular file of the
    cleaner's environment directory. *)
Theorem resolver_not_found_exact :
  let hl := Py.path_join root [KENT_BINARIES_DIRNAME c] in
  let ce := Py.path_join root [CHAIN_CLEAN_MICRO_ENV c] in
  let script_missing n :=
    negb (is_file f (Py.abspath (cwd env)
            (Py.path_join root ["standalone_scripts"; n]))) in
  let binary_missing n :=
    match which env n with
    | Some _ => false
    | None => negb (path_exists f (Py.path_join hl [n]))
    end in
  let chain_net_missing n :=
    negb (step_executables.on_search_path env n || is_file f (Py.path_join ce [n])) in
  step_executables.not_found (step_executables.resolve env f c root)
  = List.filter script_missing [RUN_LASTZ c; REPEAT_FILLER c]
    ++ List.filter binary_missing
         [FA_TO_TWO_BIT c; TWO_BIT_TO_FA c; PSL_SORT_ACC c; AXT_CHAIN c;
          CHAIN_ANTI_REPEAT c; CHAIN_MERGE_SORT c; CHAIN_CLEANER c; CHAIN_SORT c;
          CHAIN_SCORE c; LASTZ c]
    ++ List.filter chain_net_missing [CHAIN_NET c].
Proof.
  intros hl ce script_missing binary_missing chain_net_missing.
  rewrite resolve_fields. cbn [step_executables.not_found].
  rewrite !find_script_missing, !find_binary_missing, !locate_chain_net_missing.
  rewrite !filter_cons_if. cbn [List.filter].
  rewrite ?app_nil_r, <- ?app_assoc. reflexivity.
Qed.

(** X23. A record the constructor returns is complete. The run log has
    one more line and the filesystem is untouched; no attribute is
    [None]: each script is an existing regular file, each binary is what
    the search path gave or an existing path in the binaries directory,
    and the chainNet flag is [True]. *)
Theorem step_executables_init_success t self w' :
  step_executables.init env c root (MkWorld f t) = (Ok self, w') ->
  w' = MkWorld f (t ++ [EvLog "All necessary executables found."])
  /\ step_executables.not_found self = []
  /\ (forall name v,
        In (name, v) (step_executables.tool_values c self) ->
        match v with
        | Py.PyStr p => which env name = Some p \/ path_exists f p = true
        | Py.PyBool b => b = true
        | _ => False
        end).
Proof.
  unfold step_executables.init, step_executables.check_completeness,
    to_log, emit, bind, ret, raise, get_fs.
  cbn beta iota zeta delta [fs trace].
  destruct (length _ =? 0) eqn:Hlen; [|discriminate].
  intros [= <- <-]. apply Nat.eqb_eq, length_zero_iff_nil in Hlen.
  split; [reflexivity|]. split; [exact Hlen|].
  revert Hlen. rewrite resolve_fields.
  cbn [step_executables.tool_values step_executables.lastz_wrapper
       step_executables.repeat_filler step_executables.fa_to_two_bit
       step_executables.two_bit_to_fa step_executables.psl_sort_acc
       step_executables.axt_chain step_executables.chain_anti_repeat
       step_executables.chain_merge_sort step_executables.chain_cleaner
       step_executables.chain_sort step_executables.chain_score
       step_executables.lastz step_executables.chain_net
       step_executables.not_found].
  intros Hnil.
  repeat (apply app_eq_nil in Hnil as [? Hnil]).
  intros name v Hin. cbn [In] in Hin.
  repeat (destruct Hin as [Hin|Hin]; [injection Hin as <- <-|]); [..|destruct Hin].
  1,2: match goal with
       | H : (step_executables.find_script env f root [] ?n).2 = [] |-
           context [step_executables.find_script env f root [] ?n] =>
           revert H; unfold step_executables.find_script;
           destruct (is_file f _) eqn:E; cbn [negb fst snd app step_executables.opt_str];
           [intros _; right; unfold path_exists; unfold is_file in E;
            by destruct (f !! _) | discriminate]
       end.
  1-10: match goal with
       | H : (step_executables.find_binary env f ?hl [] ?n).2 = [] |-
           context [step_executables.find_binary env f ?hl [] ?n] =>
           revert H; unfold step_executables.find_binary;
           destruct (which env n) eqn:Ew; cbn [fst snd];
           [intros _; by left|];
           destruct (path_exists f _) eqn:E; cbn [negb fst snd app];
           [intros _; by right | discriminate]
       end.
  revert Hnil. unfold step_executables.locate_chain_net.
  destruct (step_executables.on_search_path env _);
    [|destruct (is_file _ _)]; cbn [fst snd app step_executables.opt_flag];
    try discriminate; done.
Qed.
End ResolverMissing.

(** ** The properties above on the sample inputs *)

(** X1 on an empty filesystem. *)
Lemma psl_bundle_without_cat_dir_witness :
  exists m,
    chain_run_step.psl_bundle (Samples.env_exit "Linux" 0 "") Samples.constants
      (fun _ _ _ _ => ret tt) "/p/cat" "/p/run" "pslSortAcc"
      (Samples.params (Py.PyBool true)) Samples.empty_world
    = (Raise (OSError m), Samples.empty_world).
Proof.
  apply (psl_bundle_without_cat_dir (Samples.env_exit "Linux" 0 "") Samples.constants
           (fun _ _ _ _ => ret tt) "/p/cat" "/p/run" "pslSortAcc"
           (Samples.params (Py.PyBool true)) Samples.empty_world).
  vm_compute. reflexivity.
Defined.

(** X2 on the sample project, on a machine where nothing can be started. *)
Lemma psl_bundle_unstartable_sort_leaves_temp_dir_witness :
  exists m cmd seen,
    chain_run_step.psl_bundle Samples.env_no_programs Samples.constants
      (fun _ _ _ _ => ret tt) "/p/cat" "/p/run" "pslSortAcc"
      (Samples.params (Py.PyBool true)) (MkWorld Samples.cat_fs [])
    = (Raise (OSError m), MkWorld seen ([] ++ [EvSpawn cmd None seen]))
    /\ is_dir seen "/p/run/sort_temp" = true.
Proof.
  apply (psl_bundle_unstartable_sort_leaves_temp_dir Samples.env_no_programs
           Samples.constants (fun _ _ _ _ => ret tt) "/p/cat" "/p/run" "pslSortAcc"
           (Samples.params (Py.PyBool true)) Samples.cat_fs []).
  - vm_compute. reflexivity.
  - vm_compute. reflexivity.
  - vm_compute. reflexivity.
  - intros cmd g. reflexivity.
Defined.

(** X3 on the sample project: one process, one last argument. *)
Lemma psl_bundle_sort_starts_one_process_witness :
  exists seen last,
    events_since (MkWorld Samples.cat_fs [])
      (chain_run_step.psl_bundle_sort (Samples.env_exit "Linux" 0 "")
         Samples.constants "/p/cat" "/p/run" "pslSortAcc" (MkWorld Samples.cat_fs [])).2
    = [EvSpawn (Argv ["pslSortAcc"; "nohead"; "/p/run/sorted_psl"; "/p/run/sort_temp";
                      last]) None seen]
    /\ last = "/p/cat/a.psl.gz /p/cat/b.psl.gz".
Proof.
  destruct (psl_bundle_sort_starts_one_process (Samples.env_exit "Linux" 0 "")
              Samples.constants "/p/cat" "/p/run" "pslSortAcc" Samples.cat_fs [])
    as (seen & last & Hev & Hlast & _).
  - vm_compute. reflexivity.
  - vm_compute. reflexivity.
  - vm_compute. reflexivity.
  - exists seen, last. split; [exact Hev|]. rewrite Hlast. vm_compute. reflexivity.
Defined.

(** X4 on the sample project: the concatenated files survive the sort
    phase. *)
Lemma psl_bundle_sort_removes_temp_dir_only_witness :
  fs (chain_run_step.psl_bundle_sort (Samples.env_exit "Linux" 0 "")
        Samples.constants "/p/cat" "/p/run" "pslSortAcc" Samples.cat_world).2
    !! "/p/cat/a.psl.gz"
  = Some (File "").
Proof.
  refine (eq_trans
            (psl_bundle_sort_removes_temp_dir_only (Samples.env_exit "Linux" 0 "")
               Samples.constants "/p/cat" "/p/run" "pslSortAcc" Samples.cat_world
               "/p/run/sorted_psl" _ _ _ _ (Completed 0 "" "") _ "/p/cat/a.psl.gz"
               _ _ _ _ _) _).
  - vm_compute. reflexivity.
  - vm_compute. left. reflexivity.
  - vm_compute. reflexivity.
  - discriminate.
  - vm_compute. reflexivity.
  - vm_compute. reflexivity.
Defined.

(** X5 on the sample project. *)
Lemma psl_bundle_calls_bundler_witness :
  exists w2,
    chain_run_step.psl_bundle (Samples.env_exit "Linux" 0 "") Samples.constants
      (fun _ _ _ _ => ret tt) "/p/cat" "/p/run" "pslSortAcc"
      (Samples.params (Py.PyBool true)) Samples.cat_world
    = (Ok tt, w2)
    /\ is_dir (fs w2) "/p/run/split_psl" = true.
Proof.
  destruct (psl_bundle_calls_bundler (Samples.env_exit "Linux" 0 "") Samples.constants
              (fun _ _ _ _ => ret tt) "/p/cat" "/p/run" "pslSortAcc"
              (Samples.params (Py.PyBool true)) Samples.cat_world "/p/run/sorted_psl"
              (chain_run_step.psl_bundle_sort (Samples.env_exit "Linux" 0 "")
                 Samples.constants "/p/cat" "/p/run" "pslSortAcc" Samples.cat_world).2)
    as (w2 & Hrun & Hdir & _).
  - vm_compute. reflexivity.
  - vm_compute. reflexivity.
  - exists w2. split; [exact Hrun | exact Hdir].
Defined.

(** X6 on the sample project with two bundles, where the chain-run
    directory exists: a bundle is kept and no other directory appears. *)
Lemma make_chains_joblist_touches_out_dir_only_witness :
  trace (chain_run_step.make_chains_joblist Samples.constants "/p/run"
           (Samples.params (Py.PyBool true)) Samples.executables
           Samples.bundles_world).2 = []
  /\ fs (chain_run_step.make_chains_joblist Samples.constants "/p/run"
           (Samples.params (Py.PyBool true)) Samples.executables
           Samples.bundles_world).2 !! "/p/run/split_psl/bundle.1.psl"
     = Some (File "")
  /\ fs (chain_run_step.make_chains_joblist Samples.constants "/p/run"
           (Samples.params (Py.PyBool true)) Samples.executables
           Samples.bundles_world).2 !! "/p/run/sorted_psl"
     = None.
Proof.
  destruct (make_chains_joblist_touches_out_dir_only Samples.constants "/p/run"
              (Samples.params (Py.PyBool true)) Samples.executables
              Samples.bundles_world) as (Htrace & Hkept & Hframe).
  split; [exact Htrace|]. split.
  - apply Hkept. vm_compute. reflexivity.
  - refine (eq_trans (Hframe _ _ "/p/run/sorted_psl" _) _).
    + vm_compute. reflexivity.
    + vm_compute. reflexivity.
    + vm_compute. discriminate.
    + vm_compute. reflexivity.
Defined.

(** X7 on an empty filesystem. *)
Lemma make_chains_joblist_without_split_dir_witness :
  exists m f',
    chain_run_step.make_chains_joblist Samples.constants "/p/run"
      (Samples.params (Py.PyBool true)) Samples.executables (MkWorld ∅ [])
    = (Raise (OSError m), MkWorld f' [])
    /\ is_dir f' "/p/run/chain_output" = true.
Proof.
  apply (make_chains_joblist_without_split_dir Samples.constants "/p/run"
           (Samples.params (Py.PyBool true)) Samples.executables ∅ []).
  - vm_compute. reflexivity.
  - vm_compute. reflexivity.
  - vm_compute. discriminate.
Defined.

(** X8 on two commands. *)
Lemma joblist_lines_roundtrip_witness :
  Py.split_on "010" (Py.str_join nl ["axtChain a"; "axtChain b"])
  = ["axtChain a"; "axtChain b"].
Proof.
  apply joblist_lines_roundtrip.
  - discriminate.
  - repeat constructor.
Defined.

(** X9 on the sample project, with a bundler that writes two bundles:
    the job list file holds the two commands, one per line, before the
    runner is called. With a runner that returns, the cleanup runs last;
    with a runner that raises, the step raises the same error and the
    call of the runner is the last thing it did. *)
Lemma do_chain_run_writes_joblist_then_runs_witness :
  (Samples.chain_run (fun _ _ => ret tt)).1 = Ok tt
  /\ fs (Samples.chain_run (fun _ _ => ret tt)).2
       !! "/p/temp_axtChain/chains_joblist.txt"
     = Some (File (Py.str_join nl Samples.chain_jobs))
  /\ last (trace (Samples.chain_run (fun _ _ => ret tt)).2)
     = Some (EvCall "NextflowWrapper.cleanup" [])
  /\ (Samples.chain_run Samples.failing_runner).1
     = Raise (RuntimeError "nextflow failed")
  /\ fs (Samples.chain_run Samples.failing_runner).2
       !! "/p/temp_axtChain/chains_joblist.txt"
     = Some (File (Py.str_join nl Samples.chain_jobs))
  /\ last (trace (Samples.chain_run Samples.failing_runner).2)
     = Some (EvCall "NextflowWrapper.execute"
               ["/p/temp_axtChain/chains_joblist.txt"; "/r/lastz.config";
                "/p/temp_axtChain"]).
Proof.
  pose (w0 := (makedirs_exist_ok "/p/temp_axtChain" Samples.project_world).2).
  pose (w1 := (chain_run_step.psl_bundle (Samples.env_exit "Linux" 0 "")
                 Samples.constants Samples.write_two_bundles
                 "/p/temp_concat_lastz_output" "/p/temp_axtChain" "/usr/bin/pslSortAcc"
                 (Samples.params (Py.PyBool true)) w0).2).
  pose (w2 := (chain_run_step.make_chains_joblist Samples.constants "/p/temp_axtChain"
                 (Samples.params (Py.PyBool true)) Samples.executables w1).2).
  assert (Hthm : forall nextflow_execute,
            let joblist := "/p/temp_axtChain/chains_joblist.txt" in
            let crd := "/p/temp_axtChain" in
            let w3 := MkWorld
                        (<[joblist := File (Py.str_join nl Samples.chain_jobs)]> (fs w2))
                        (trace w2 ++ [EvCall "NextflowWrapper.execute"
                                        [joblist; "/r/lastz.config"; crd]]) in
            Samples.chain_run nextflow_execute
            = (_ <- nextflow_execute joblist crd ;; Samples.logged_cleanup) w3
            /\ (forall e w4, nextflow_execute joblist crd w3 = (Raise e, w4) ->
                  Samples.chain_run nextflow_execute = (Raise e, w4))).
  { intros nextflow_execute.
    apply (do_chain_run_writes_joblist_then_runs
             (Samples.env_exit "Linux" 0 "") Samples.constants
             Samples.write_two_bundles nextflow_execute Samples.logged_cleanup
             "/r/lastz.config" "/p" (Samples.params (Py.PyBool true)) Samples.executables
             Samples.project_world w0 w1 w2 Samples.chain_jobs);
      vm_compute; reflexivity. }
  destruct (Hthm (fun _ _ => ret tt)) as [Hok _].
  destruct (Hthm Samples.failing_runner) as [_ Hfail].
  cbv zeta in Hok, Hfail.
  rewrite Hok, (Hfail (RuntimeError "nextflow failed") _ eq_refl).
  repeat split; vm_compute; reflexivity.
Defined.

(** X10 on the sample project, where the cleaner and gzip exit with
    status 0: the step returns normally. *)
Lemma do_chains_clean_after_clean_exit_witness :
  (clean_chain_step.do_chains_clean (Samples.env_exit "Linux" 0 "")
     (Samples.params (Py.PyBool true)) Samples.paths Samples.executables
     Samples.chains_world).1
  = Ok tt.
Proof.
  refine (eq_trans (proj1 (do_chains_clean_after_clean_exit
                     (Samples.env_exit "Linux" 0 "")
                     (Samples.params (Py.PyBool true)) Samples.paths Samples.executables
                     (fs Samples.chains_world) [] "filled" "/usr/bin"
                     (Completed 0 "" "") _ _ _ _ _ _)) _).
  - vm_compute. reflexivity.
  - reflexivity.
  - vm_compute. discriminate.
  - vm_compute. reflexivity.
  - reflexivity.
  - vm_compute. reflexivity.
Defined.

(** X11 on the sample project. *)
Lemma do_chains_clean_moves_input_aside_witness :
  exists seen rest,
    events_since Samples.chains_world
      (clean_chain_step.do_chains_clean (Samples.env_exit "Linux" 0 "")
         (Samples.params (Py.PyBool true)) Samples.paths Samples.executables
         Samples.chains_world).2
    = clean_chain_step.events_to_cleaner (Samples.params (Py.PyBool true))
        Samples.paths Samples.executables "/usr/bin" seen ++ rest
    /\ seen !! "/p/before_cleaning.chain.gz" = Some (File "filled")
    /\ seen !! "/p/filled.chain.gz" = None
    /\ seen !! "/p/chain_cleaner.log" = Some (File "").
Proof.
  apply (do_chains_clean_moves_input_aside (Samples.env_exit "Linux" 0 "")
           (Samples.params (Py.PyBool true)) Samples.paths Samples.executables
           (fs Samples.chains_world) [] "filled" "/usr/bin").
  - vm_compute. reflexivity.
  - reflexivity.
  - vm_compute. reflexivity.
  - vm_compute. discriminate.
  - vm_compute. discriminate.
  - vm_compute. discriminate.
Defined.

(** X12 on the sample project, in a process without [PATH]. *)
Lemma do_chains_clean_without_PATH_witness :
  exists msg,
    clean_chain_step.do_chains_clean Samples.env_no_PATH
      (Samples.params (Py.PyBool true)) Samples.paths Samples.executables
      Samples.chains_world
    = (Raise (KeyError "PATH"),
       MkWorld (<["/p/before_cleaning.chain.gz" := File "filled"]>
                  (delete "/p/filled.chain.gz" (fs Samples.chains_world)))
         ([] ++ [EvLog msg;
                 EvMove "/p/filled.chain.gz" "/p/before_cleaning.chain.gz";
                 EvLog ("Chain to be cleaned saved to: "
                        +:+ "/p/before_cleaning.chain.gz")])).
Proof.
  apply (do_chains_clean_without_PATH Samples.env_no_PATH
           (Samples.params (Py.PyBool true)) Samples.paths Samples.executables
           (fs Samples.chains_world) [] "filled").
  - vm_compute. reflexivity.
  - reflexivity.
Defined.

(** X15 on an empty filesystem. *)
Lemma do_chains_clean_missing_input_witness :
  exists msg,
    clean_chain_step.do_chains_clean (Samples.env_exit "Linux" 0 "")
      (Samples.params (Py.PyBool true)) Samples.paths Samples.executables
      (MkWorld ∅ [])
    = (Raise (RuntimeError ("Cannot find " +:+ "/p/filled.chain.gz")),
       MkWorld ∅ ([] ++ [EvLog msg])).
Proof.
  apply (do_chains_clean_missing_input (Samples.env_exit "Linux" 0 "")
           (Samples.params (Py.PyBool true)) Samples.paths Samples.executables ∅ []).
  vm_compute. reflexivity.
Defined.

(** X16 on the sample project, where the sort exits with status 1. *)
Lemma do_bundle_psl_runs_sort_only_witness :
  (bundle_psl_step.do_bundle_psl (Samples.env_exit "Linux" 1 "") Samples.constants
     "/p" (Samples.params (Py.PyBool true)) Samples.executables
     Samples.project_world).1
  = Raise (CalledProcessError 1
             (Shell ("/usr/bin/pslSortAcc nohead /p/temp_concat_lastz_output/sorted_psls "
                     +:+ "/p/temp_concat_lastz_output/sort_temp "
                     +:+ "/p/temp_concat_lastz_output/concatenated.psl.gz") None)).
Proof.
  refine (eq_trans (f_equal fst
            (do_bundle_psl_runs_sort_only (Samples.env_exit "Linux" 1 "")
               Samples.constants "/p" (Samples.params (Py.PyBool true))
               Samples.executables (fs Samples.project_world) [] (Completed 1 "" "")
               (fs Samples.project_world) _)) _).
  - vm_compute. reflexivity.
  - vm_compute. reflexivity.
Defined.

(** X18 on a complete installation. *)
Lemma entry_point_init_record_witness :
  exists ex,
    make_chains.init Samples.env_installed "/r" Samples.installed_world
    = (Ok ex, Samples.installed_world)
    /\ is_file (fs Samples.installed_world) (make_chains.lastz_wrapper ex) = true
    /\ make_chains.fa_to_two_bit ex = "/usr/bin/faToTwoBit".
Proof.
  eexists. split; [vm_compute; reflexivity|].
  destruct (entry_point_init_record Samples.env_installed "/r"
              (fs Samples.installed_world) [] _ Samples.installed_world
              ltac:(vm_compute; reflexivity)) as (Hfiles & Hbin & _).
  split.
  - apply Forall_cons in Hfiles as [_ Hfiles].
    apply Forall_cons in Hfiles as [H _]. exact H.
  - reflexivity.
Defined.

(** X19 on a machine where nothing is installed: the pipeline ends with
    the error for the first script, after the set-up. *)
Lemma run_pipeline_missing_tool_witness :
  exists kind,
    make_chains.run_pipeline (Samples.env_exit "Linux" 0 "") "/r" "2.0"
      (StepManager := unit) (Parameters := unit) (RenameTable := unit)
      (fun _ => ret "/p") (fun _ _ => ret tt) (fun _ => ret tt)
      (fun _ => ret tt) (fun _ _ => ret tt) (fun _ _ _ _ => ret tt)
      (fun _ _ _ _ => ret tt) Samples.namespace Samples.empty_world
    = (Raise (ValueError ("Error! Cannot locate " +:+ kind +:+ ": "
                          +:+ "partitionSequence.pl")),
       (make_chains.run_pipeline_setup (Samples.env_exit "Linux" 0 "") "/r" "2.0"
          (StepManager := unit) (Parameters := unit)
          (fun _ => ret "/p") (fun _ _ => ret tt) (fun _ => ret tt)
          (fun _ => ret tt) (fun _ _ => ret tt) Samples.namespace
          Samples.empty_world).2)
    /\ (kind = "script" \/ kind = "binary").
Proof.
  eapply (run_pipeline_missing_tool (Samples.env_exit "Linux" 0 "") "/r" "2.0"
            (SM := unit) (P := unit) (RT := unit)
            (fun _ => ret "/p") (fun _ _ => ret tt) (fun _ => ret tt)
            (fun _ => ret tt) (fun _ _ => ret tt) (fun _ _ _ _ => ret tt)
            (fun _ _ _ _ => ret tt) Samples.namespace Samples.empty_world _
            ("/p", tt, tt)).
  - vm_compute. reflexivity.
  - vm_compute. reflexivity.
Defined.

(** X20 where git fails at once, and where it prints the hash but cannot
    name the branch. *)
Lemma log_version_git_failure_witness :
  (make_chains.log_version (Samples.env_exit "Linux" 128 "") "/r" "2.0"
     Samples.empty_world).1
  = Ok ("Version 2.0" +:+ nl +:+ "Commit: unknown" +:+ nl +:+ "Branch: unknown" +:+ nl)
  /\ (make_chains.log_version Samples.env_git_detached "/r" "2.0"
        Samples.empty_world).1
     = Ok ("Version 2.0" +:+ nl +:+ "Commit: unknown" +:+ nl +:+ "Branch: unknown" +:+ nl).
Proof.
  split.
  - refine (eq_trans (f_equal fst
              (proj1 (log_version_git_failure (Samples.env_exit "Linux" 128 "")
                        "/r" "2.0" ∅ [] (Completed 128 "" "") ∅ _) _)) _).
    + vm_compute. reflexivity.
    + discriminate.
    + vm_compute. reflexivity.
  - refine (eq_trans (f_equal fst
              (proj2 (log_version_git_failure Samples.env_git_detached
                        "/r" "2.0" ∅ [] (Completed 0 ("0a1b2c3" +:+ nl) "") ∅ _)
                 _ (Completed 128 "" "fatal") ∅ _ _)) _).
    + vm_compute. reflexivity.
    + reflexivity.
    + vm_compute. reflexivity.
    + discriminate.
    + vm_compute. reflexivity.
Defined.

(** X23 on a complete installation. *)
Lemma step_executables_init_success_witness :
  exists self,
    step_executables.init Samples.env_installed Samples.constants "/r"
      Samples.installed_world
    = (Ok self, MkWorld (fs Samples.installed_world)
                  ([] ++ [EvLog "All necessary executables found."]))
    /\ step_executables.not_found self = []
    /\ step_executables.chain_net self = Some true.
Proof.
  eexists. split; [vm_compute; reflexivity|].
  destruct (step_executables_init_success Samples.env_installed
              (fs Samples.installed_world) Samples.constants "/r" [] _ _
              ltac:(vm_compute; reflexivity)) as (_ & Hnf & _).
  split; [exact Hnf | reflexivity].
Defined.

(** X24 on a machine where nothing is installed. *)
Lemma step_executables_init_lists_every_missing_tool_witness :
  (step_executables.init (Samples.env_exit "Linux" 0 "") Samples.constants "/r"
     Samples.empty_world).2
  = Samples.empty_world
  /\ Py.contains
       (step_executables.err_msg
          (step_executables.resolve (Samples.env_exit "Linux" 0 "") ∅
             Samples.constants "/r"))
       ("* " +:+ "lastz")
     = true.
Proof.
  destruct (step_executables_init_lists_every_missing_tool
              (Samples.env_exit "Linux" 0 "") Samples.constants "/r" ∅ [])
    as (Hrun & Hmsg).
  - vm_compute. discriminate.
  - split.
    + unfold Samples.empty_world. rewrite Hrun. reflexivity.
    + apply Hmsg. vm_compute. do 11 right. left. reflexivity.
Defined.
